(** * CodeForge: the sandboxed execution core of [backend/src/api/routes/run.py]

    A shallow embedding of [run_code], [run_command] with its worker
    [target], [get_command_for_language] and [time_to_seconds], together
    with the parts of the Python runtime these functions rely on (text
    splitting, [int], true division, [round]), followed by the properties
    of the execution core.

    Conventions of the embedding.
    - A Python [str] is a Rocq [string]; each character stands for the code
      point of the same number, so texts range over the code points 0..255.
      The tables of line boundaries, white space, digits and printable
      characters below are the interpreter's, restricted to that range.
    - A Python [int] is a [Z]; a Python [float] is a binary64 number,
      represented by [spec_float] with precision 53 and maximal exponent
      1024, with the round-to-nearest-even operations of [SpecFloat].
    - An exception is a value that carries its text [str(e)]; a computation
      that may raise returns [exc]. The texts are CPython's (of the versions
      3.11 to 3.13 where they vary). The limit of [int] on the number of
      digits is a parameter, [max_str_digits].
    - [result] is one mutable object: the worker is a state transformer on
      [RunResponse] that may raise, and a raise keeps the assignments made
      before it.
    - The operating system is a parameter, [system]: what the launched
      process did ([process_outcome]) and whether the worker thread was
      still running when the bounded join returned. The worker thread is
      taken to end; creating, writing and removing the temporary directory
      are taken to succeed and have no part in the result.
    - The parameters [timeout] and [memory_limit] of [run_command] are
      [int]s, as their defaults 5 and 1000 are. *)

From Stdlib Require Import ZArith NArith List String Ascii Bool Lia.
From Stdlib Require Import DecimalString DecimalZ.
From Stdlib Require Import Floats.SpecFloat.
Import ListNotations.

Local Open Scope string_scope.
Local Open Scope Z_scope.

(** ** Python text primitives *)

Module PyStr.

Definition ord (c : ascii) : N := N_of_ascii c.

Definition LF : ascii := ascii_of_N 10.
Definition CR : ascii := ascii_of_N 13.
Definition TAB : ascii := ascii_of_N 9.
Definition nl : string := String LF EmptyString.

(** Line boundaries of [str.splitlines]: \n \v \f \r \x1c \x1d \x1e \x85. *)
Definition is_linebreak (c : ascii) : bool :=
  match ord c with
  | 10 | 11 | 12 | 13 | 28 | 29 | 30 | 133 => true
  | _ => false
  end%N.

(** [str.isspace] on one character: \t \n \v \f \r, \x1c..\x1f, space,
    \x85 and \xa0. This is the separator set of [str.split()]. *)
Definition isspace (c : ascii) : bool :=
  match ord c with
  | 9 | 10 | 11 | 12 | 13 | 28 | 29 | 30 | 31 | 32 | 133 | 160 => true
  | _ => false
  end%N.

Definition isdigit (c : ascii) : bool :=
  ((48 <=? ord c) && (ord c <=? 57))%N.

Definition digit_value (c : ascii) : Z := Z.of_N (ord c) - 48.

(** [s.splitlines()]: the lines of [s] without their terminators; \r\n is
    one terminator; a terminator at the very end opens no further line. *)
Fixpoint splitlines (s : string) : list string :=
  match s with
  | EmptyString => []
  | String c rest =>
      if is_linebreak c then
        EmptyString ::
          match rest with
          | String c' rest' =>
              if (Ascii.eqb c CR && Ascii.eqb c' LF)%bool
              then splitlines rest' else splitlines rest
          | EmptyString => []
          end
      else
        match splitlines rest with
        | line :: lines => String c line :: lines
        | [] => [String c EmptyString]
        end
  end.

(** [sep.join(parts)]. *)
Fixpoint join (sep : string) (parts : list string) : string :=
  match parts with
  | [] => EmptyString
  | [p] => p
  | p :: ps => p ++ sep ++ join sep ps
  end.

(** [s.split()]: the maximal runs of non-space characters. *)
Fixpoint split_ws (s : string) : list string :=
  match s with
  | EmptyString => []
  | String c rest =>
      if isspace c then split_ws rest
      else
        match rest with
        | EmptyString => [String c EmptyString]
        | String c' _ =>
            if isspace c' then String c EmptyString :: split_ws rest
            else
              match split_ws rest with
              | tok :: toks => String c tok :: toks
              | [] => [String c EmptyString]
              end
        end
  end.

(** [s.split(sep)] for a one-character separator: empty fields are kept. *)
Fixpoint split_on (sep : ascii) (s : string) : list string :=
  match s with
  | EmptyString => [EmptyString]
  | String c rest =>
      if Ascii.eqb c sep then EmptyString :: split_on sep rest
      else
        match split_on sep rest with
        | field :: fields => String c field :: fields
        | [] => [String c EmptyString]
        end
  end.

(** [c in s] for a one-character [c]. *)
Fixpoint contains (c : ascii) (s : string) : bool :=
  match s with
  | EmptyString => false
  | String c' rest => (Ascii.eqb c' c || contains c rest)%bool
  end.

(** Truth value of a text: non-empty. *)
Definition truthy (s : string) : bool :=
  match s with EmptyString => false | String _ _ => true end.

(** [str(n)] and [f"{n}"] of an integer. *)
Definition str_of_int (z : Z) : string := NilZero.string_of_int (Z.to_int z).

End PyStr.

(** ** Exceptions *)

(** The exception classes the execution core can meet, each with the text
    [str(e)] gives. [OtherException] stands for any further subclass of
    [Exception] raised by the runtime (an [OSError] of [Popen], a broken
    pipe, a decoding error). *)
Inductive exception : Type :=
| ValueError (msg : string)
| IndexError (msg : string)
| OverflowError (msg : string)
| TimeoutExpired (msg : string)
| OtherException (msg : string).

Definition str_of_exception (e : exception) : string :=
  match e with
  | ValueError msg | IndexError msg | OverflowError msg
  | TimeoutExpired msg | OtherException msg => msg
  end.

Definition is_TimeoutExpired (e : exception) : bool :=
  match e with TimeoutExpired _ => true | _ => false end.

Inductive exc (A : Type) : Type :=
| Ok (a : A)
| Raise (e : exception).
Arguments Ok {A} a.
Arguments Raise {A} e.

Definition exc_bind {A B : Type} (m : exc A) (k : A -> exc B) : exc B :=
  match m with
  | Ok a => k a
  | Raise e => Raise e
  end.

Declare Scope exc_scope.
Delimit Scope exc_scope with exc.
Notation "x <- m ;; k" := (exc_bind m (fun x => k))
  (at level 61, m at next level, right associativity) : exc_scope.

(** ** [repr] of a text, as it appears in error messages *)

Module PyRepr.
Import PyStr.

Definition hex_digit (n : N) : ascii :=
  if (n <? 10)%N then ascii_of_N (48 + n) else ascii_of_N (87 + n).

(** Code points without a printable glyph: the control characters, DEL,
    \x80..\xa0 and the soft hyphen \xad. *)
Definition printable (c : ascii) : bool :=
  let n := ord c in
  (((32 <=? n) && (n <=? 126)) || ((161 <=? n) && negb (n =? 173)))%N%bool.

Definition backslash : ascii := ascii_of_N 92.
Definition squote : ascii := ascii_of_N 39.
Definition dquote : ascii := ascii_of_N 34.

Definition escape_char (quote c : ascii) : string :=
  if (Ascii.eqb c quote || Ascii.eqb c backslash)%bool
  then String backslash (String c EmptyString)
  else if Ascii.eqb c TAB then String backslash "t"
  else if Ascii.eqb c LF then String backslash "n"
  else if Ascii.eqb c CR then String backslash "r"
  else if printable c then String c EmptyString
  else String backslash
         (String "x" (String (hex_digit (ord c / 16))
                        (String (hex_digit (ord c mod 16)) EmptyString))).

Fixpoint escape (quote : ascii) (s : string) : string :=
  match s with
  | EmptyString => EmptyString
  | String c rest => escape_char quote c ++ escape quote rest
  end.

(** Single quotes, unless the text has a single quote and no double quote. *)
Definition repr (s : string) : string :=
  let quote :=
    if (contains squote s && negb (contains dquote s))%bool
    then dquote else squote in
  String quote (escape quote s ++ String quote EmptyString).

(** The C format [%.200R]: at most 200 characters of the [repr]. *)
Fixpoint truncate (n : nat) (s : string) : string :=
  match n, s with
  | S n', String c rest => String c (truncate n' rest)
  | _, _ => EmptyString
  end.

End PyRepr.

(** ** [int(text)] in base 10 *)

Section PyInt.
Import PyStr.

(** [sys.get_int_max_str_digits()]: 0 switches the limit off, which is also
    the behaviour of interpreters that have no such limit; 4300 is the
    default of those that have it. *)
Variable max_str_digits : N.

(** White space [int] skips at both ends of its argument. *)
Definition int_isspace (c : ascii) : bool :=
  match ord c with
  | 9 | 10 | 11 | 12 | 13 | 32 | 133 | 160 => true
  | _ => false
  end%N.

Fixpoint skip_spaces (s : string) : string :=
  match s with
  | String c rest => if int_isspace c then skip_spaces rest else s
  | EmptyString => EmptyString
  end.

Definition underscore : ascii := ascii_of_N 95.

(** Scan the longest run of digits and underscores: the value read, the
    number of digits and the unread rest; [None] for two underscores in a
    row or an underscore at the end of the run. *)
Fixpoint scan_digits (s : string) (after_underscore : bool) (acc : Z) (count : N)
  : option (Z * N * string) :=
  match s with
  | String c rest =>
      if isdigit c then
        scan_digits rest false (10 * acc + digit_value c) (count + 1)
      else if Ascii.eqb c underscore then
        if after_underscore then None else scan_digits rest true acc count
      else if after_underscore then None else Some (acc, count, s)
  | EmptyString =>
      if after_underscore then None else Some (acc, count, EmptyString)
  end.

Definition invalid_literal (s : string) : exception :=
  ValueError ("invalid literal for int() with base 10: "
              ++ PyRepr.truncate 200 (PyRepr.repr s)).

Definition exceeds_limit (digits : N) : exception :=
  ValueError ("Exceeds the limit (" ++ str_of_int (Z.of_N max_str_digits)
              ++ " digits) for integer string conversion: value has "
              ++ str_of_int (Z.of_N digits)
              ++ " digits; use sys.set_int_max_str_digits() to increase the limit").

Definition int_of_str (s : string) : exc Z :=
  let body := skip_spaces s in
  let '(negative, body) :=
    match body with
    | String "-" rest => (true, rest)
    | String "+" rest => (false, rest)
    | _ => (false, body)
    end in
  match body with
  | String c _ =>
      if Ascii.eqb c underscore then Raise (invalid_literal s)
      else
        match scan_digits body false 0 0 with
        | None => Raise (invalid_literal s)
        | Some (value, digits, rest) =>
            if (digits =? 0)%N then Raise (invalid_literal s)
            else if ((640 <? digits) && (0 <? max_str_digits)
                     && (max_str_digits <? digits))%N%bool
            then Raise (exceeds_limit digits)
            else
              match skip_spaces rest with
              | EmptyString => Ok (if negative then - value else value)
              | String _ _ => Raise (invalid_literal s)
              end
        end
  | EmptyString => Raise (invalid_literal s)
  end.

End PyInt.

(** ** Python numbers: [int], binary64 [float] *)

Module PyNum.

Definition prec : Z := 53.
Definition emax : Z := 1024.

Definition is_finite (x : spec_float) : bool :=
  match x with
  | S754_zero _ | S754_finite _ _ _ => true
  | S754_infinity _ | S754_nan => false
  end.

(** The binary64 number nearest to the integer [z] (ties to even). *)
Definition nearest_of_Z (z : Z) : spec_float :=
  binary_normalize prec emax z 0 false.

(** The binary64 number nearest to the quotient [a / b], for [b > 0]. *)
Definition nearest_quotient (negative : bool) (a b : Z) : spec_float :=
  let '(q, e, loc) := SFdiv_core_binary prec emax a 0 b 0 in
  binary_round_aux prec emax negative q e loc.

(** The implicit conversion of an [int] operand that meets a [float]. *)
Definition float_of_int (z : Z) : exc spec_float :=
  let x := nearest_of_Z z in
  if is_finite x then Ok x
  else Raise (OverflowError "int too large to convert to float").

(** [a / b] on two [int]s with [b > 0]: the correctly rounded quotient. *)
Definition true_div (a b : Z) : exc spec_float :=
  let x := nearest_quotient (a <? 0) (Z.abs a) b in
  if is_finite x then Ok x
  else Raise (OverflowError "integer division result too large for a float").

Definition float_add (x y : spec_float) : spec_float := SFadd prec emax x y.

(** [n / d] rounded to the nearest integer, ties to even ([n >= 0], [d > 0]). *)
Definition div_half_even (n d : Z) : Z :=
  let q := n / d in
  match 2 * (n mod d) ?= d with
  | Lt => q
  | Gt => q + 1
  | Eq => if Z.even q then q else q + 1
  end.

(** [round(x, 3)] on a [float]: the exact value of [x] is rounded to three
    decimals (ties to even) and the decimal obtained is read back as the
    nearest binary64 number; zeros, infinities and NaN round to themselves. *)
Definition round3_float (x : spec_float) : spec_float :=
  match x with
  | S754_finite s m e =>
      let thousandths :=
        if 0 <=? e then Zpos m * 1000 * 2 ^ e
        else div_half_even (Zpos m * 1000) (2 ^ (- e)) in
      nearest_quotient s thousandths 1000
  | _ => x
  end.

(** A value of a variable that holds an [int] on some paths and a [float]
    on others. *)
Inductive number : Type :=
| PyInt (z : Z)
| PyFloat (x : spec_float).

(** [round(v, 3)]: an [int] is returned as it is. *)
Definition round3 (v : number) : number :=
  match v with
  | PyInt z => PyInt z
  | PyFloat x => PyFloat (round3_float x)
  end.

End PyNum.

(** ** The data model of [run.py] *)

Import PyStr PyNum.
Local Open Scope exc_scope.

Inductive Language : Type := PYTHON | JAVASCRIPT.

(** [language.value] *)
Definition Language_value (l : Language) : string :=
  match l with
  | PYTHON => "py"
  | JAVASCRIPT => "js"
  end.

Record RunRequest : Type := {
  source_code : string;
  input_data : option string;
  language : Language;
  username : option string
}.

Record RunResponse : Type := {
  stdout : string;
  stderr : string;
  return_code : option Z;
  elapsed_time : option number;
  memory_usage : option number;
  timeout : bool;
  test_passed : bool;
  message : string
}.

(** [RunResponse(message=msg)]: every other field takes its default. *)
Definition new_RunResponse (msg : string) : RunResponse :=
  {| stdout := ""; stderr := ""; return_code := None;
     elapsed_time := None; memory_usage := None;
     timeout := false; test_passed := false; message := msg |}.

(** Attribute assignments [result.field = v]. *)
Definition set_stdout (v : string) (r : RunResponse) : RunResponse :=
  {| stdout := v; stderr := stderr r; return_code := return_code r;
     elapsed_time := elapsed_time r; memory_usage := memory_usage r;
     timeout := timeout r; test_passed := test_passed r; message := message r |}.

Definition set_stderr (v : string) (r : RunResponse) : RunResponse :=
  {| stdout := stdout r; stderr := v; return_code := return_code r;
     elapsed_time := elapsed_time r; memory_usage := memory_usage r;
     timeout := timeout r; test_passed := test_passed r; message := message r |}.

Definition set_return_code (v : option Z) (r : RunResponse) : RunResponse :=
  {| stdout := stdout r; stderr := stderr r; return_code := v;
     elapsed_time := elapsed_time r; memory_usage := memory_usage r;
     timeout := timeout r; test_passed := test_passed r; message := message r |}.

Definition set_elapsed_time (v : option number) (r : RunResponse) : RunResponse :=
  {| stdout := stdout r; stderr := stderr r; return_code := return_code r;
     elapsed_time := v; memory_usage := memory_usage r;
     timeout := timeout r; test_passed := test_passed r; message := message r |}.

Definition set_memory_usage (v : option number) (r : RunResponse) : RunResponse :=
  {| stdout := stdout r; stderr := stderr r; return_code := return_code r;
     elapsed_time := elapsed_time r; memory_usage := v;
     timeout := timeout r; test_passed := test_passed r; message := message r |}.

Definition set_timeout (v : bool) (r : RunResponse) : RunResponse :=
  {| stdout := stdout r; stderr := stderr r; return_code := return_code r;
     elapsed_time := elapsed_time r; memory_usage := memory_usage r;
     timeout := v; test_passed := test_passed r; message := message r |}.

Definition set_message (v : string) (r : RunResponse) : RunResponse :=
  {| stdout := stdout r; stderr := stderr r; return_code := return_code r;
     elapsed_time := elapsed_time r; memory_usage := memory_usage r;
     timeout := timeout r; test_passed := test_passed r; message := v |}.

(** ** Sequence operations that may raise *)

(** [l[i]] for [i >= 0]. *)
Definition getitem {A : Type} (l : list A) (i : nat) : exc A :=
  match nth_error l i with
  | Some a => Ok a
  | None => Raise (IndexError "list index out of range")
  end.

(** [a, b = l], with the texts of CPython up to 3.13. *)
Definition unpack2 {A : Type} (l : list A) : exc (A * A) :=
  match l with
  | [a; b] => Ok (a, b)
  | [] | [_] =>
      Raise (ValueError ("not enough values to unpack (expected 2, got "
                         ++ str_of_int (Z.of_nat (List.length l)) ++ ")"))
  | _ => Raise (ValueError "too many values to unpack (expected 2)")
  end.

(** ** What the operating system contributes to one run *)

(** The launch-and-wait sequence [Popen(...)] then [communicate(...)]. *)
Inductive process_outcome : Type :=
| SpawnFailed (reason : string)
    (* [Popen] raised; [reason] is the text of the exception *)
| CommunicateFailed (e : exception)
    (* [communicate] raised [e]: [TimeoutExpired] or an I/O error *)
| Completed (out err : string) (returncode : Z).
    (* the process ended: its two streams and [process.returncode] *)

Record system : Type := {
  (* [sys.platform == "win32"] *)
  win32 : bool;
  (* [os.path.join] *)
  path_join : string -> string -> string;
  (* [tempfile.mkdtemp(prefix=...)] *)
  mkdtemp : string -> string;
  (* the process launched with an argument vector, an input text and a
     [communicate] time-out *)
  popen_communicate : list string -> option string -> Z -> process_outcome;
  (* [thread.is_alive()] once [thread.join(t)] has returned *)
  is_alive_after_join : Z -> bool
}.

(** ** The worker: computations that update [result] and may raise

    An exception leaves the assignments made before it in place. *)

Definition worker (A : Type) : Type := RunResponse -> RunResponse * exc A.

Definition w_ret {A : Type} (a : A) : worker A := fun r => (r, Ok a).

Definition w_bind {A B : Type} (m : worker A) (k : A -> worker B) : worker B :=
  fun r =>
    match m r with
    | (r', Ok a) => k a r'
    | (r', Raise e) => (r', Raise e)
    end.

Definition w_lift {A : Type} (m : exc A) : worker A := fun r => (r, m).

Definition w_assign (f : RunResponse -> RunResponse) : worker unit :=
  fun r => (f r, Ok tt).

Declare Scope worker_scope.
Delimit Scope worker_scope with worker.
Notation "x <- m ;; k" := (w_bind m (fun x => k))
  (at level 61, m at next level, right associativity) : worker_scope.
Notation "m ;; k" := (w_bind m (fun _ => k))
  (at level 61, right associativity) : worker_scope.

Section ExecutionCore.

Variable max_str_digits : N.
Variable os : system.

(** [int(text)] under the interpreter's digit limit. *)
Definition int : string -> exc Z := int_of_str max_str_digits.

(** *** [time_to_seconds] *)

Definition time_to_seconds (time_str : string) : exc number :=
  let parts := split_on ":" time_str in
  let seconds := 0 in
  sp <- (if (List.length parts =? 3)%nat
         then p0 <- getitem parts 0 ;;
              hours <- int p0 ;;
              Ok (seconds + hours * 3600, tl parts)
         else Ok (seconds, parts)) ;;
  let seconds := fst sp in
  let parts := snd sp in
  p0 <- getitem parts 0 ;;
  minutes <- int p0 ;;
  let seconds := seconds + minutes * 60 in
  p1 <- getitem parts 1 ;;
  if contains "." p1 then
    sm <- unpack2 (split_on "." p1) ;;
    secs <- int (fst sm) ;;
    let seconds := seconds + secs in
    msecs <- int (snd sm) ;;
    fraction <- true_div msecs 100 ;;
    whole <- float_of_int seconds ;;
    Ok (PyFloat (float_add whole fraction))
  else
    secs <- int p1 ;;
    Ok (PyInt (seconds + secs)).

(** *** [get_command_for_language]

    The two [raise ValueError] branches of the source belong to values
    outside the enumeration and have no counterpart here. *)
Definition get_command_for_language (file_name : string) (language : Language)
  : list string :=
  if win32 os then
    match language with
    | PYTHON =>
        ["C:\\Users\\VARMA\\AppData\\Local\\Microsoft\\WindowsApps\\python3.exe";
         file_name]
    | JAVASCRIPT => ["node"; file_name]
    end
  else
    match language with
    | PYTHON => [".venv/Scripts/python3"; file_name]
    | JAVASCRIPT => ["/bin/node"; file_name]
    end.

(** *** [run_command] and its worker [target] *)

Section RunCommand.

Variable tempdir : string.
Variable timeout : Z.
Variable memory_limit : Z.

Definition nsjail_cmd : list string :=
  ["nsjail"; "-Mo"; "-q"; "--user"; "99999"; "--group"; "99999";
   "--rlimit_as=" ++ str_of_int memory_limit;
   "--time_limit=" ++ str_of_int timeout;
   "-R"; "/bin/"; "-R"; "/lib/"; "-R"; "/lib64/"; "-R"; "/usr/";
   "-R"; "/etc/alternatives/";
   "-B"; tempdir; "-D"; tempdir; "--keep_env"; "--"].

Definition time_cmd : list string := ["/bin/time"; "-a"; "-f"; "%E %M"; "--"].

(** [Popen(command, ...)] followed by [process.communicate(input, timeout)]. *)
Definition launch (command : list string) (input_string : option string)
  : exc (string * string * Z) :=
  match popen_communicate os command input_string timeout with
  | SpawnFailed reason => Raise (OtherException reason)
  | CommunicateFailed e => Raise e
  | Completed out err returncode => Ok (out, err, returncode)
  end.

(** Line 134: the program's own error text and the telemetry line. *)
Definition split_telemetry (err : string) : string * string :=
  let split_stderr := splitlines err in
  if (1 <? List.length split_stderr)%nat
  then (join nl (removelast split_stderr), last split_stderr "")
  else ("", err).

Local Open Scope worker_scope.

(** The body of the [try] block of [target]. *)
Definition target_body (command : list string) (input_string : option string)
  : worker unit :=
  let command := (nsjail_cmd ++ time_cmd ++ command)%list in
  proc <- w_lift (launch command input_string) ;;
  let '(out, err, returncode) := proc in
  let '(err, time_output) := split_telemetry err in
  toks <- w_lift (unpack2 (split_ws time_output)) ;;
  elapsed <- w_lift (time_to_seconds (fst toks)) ;;
  memory <- w_lift (int (snd toks)) ;;
  (if returncode =? 137 then w_assign (set_timeout true) else w_ret tt) ;;
  w_assign (set_stdout out) ;;
  w_assign (set_stderr err) ;;
  w_assign (set_return_code (Some returncode)) ;;
  w_assign (set_elapsed_time (Some (round3 elapsed))) ;;
  megabytes <- w_lift (true_div memory 1024) ;;
  w_assign (set_memory_usage (Some (PyFloat (round3_float megabytes)))).

(** [target]: the [try] block with its two handlers. [process.kill()] acts
    on the operating system only. *)
Definition target (command : list string) (input_string : option string)
           (result : RunResponse) : RunResponse :=
  match target_body command input_string result with
  | (result, Ok _) => result
  | (result, Raise e) =>
      if is_TimeoutExpired e then set_timeout true result
      else set_message (str_of_exception e) result
  end.

(** The bound of the wait [thread.join(timeout)] of line 158: the
    wall-clock watchdog of the supervisor. *)
Definition watchdog_window : Z := timeout.

(** [run_command]: the worker runs on a thread of its own; the caller waits
    for it at most [timeout] seconds, records a time-out when it is still
    running, and then waits for its end. *)
Definition run_command (command : list string) (input_string : option string)
  : RunResponse :=
  let result := new_RunResponse "" in
  let result := target command input_string result in
  if is_alive_after_join os watchdog_window then set_timeout true result
  else result.

End RunCommand.

(** *** [run_code] *)

(** [write_source_code_to_file]: the name of the file written. *)
Definition write_source_code_to_file (source_code tempdir : string)
           (language : Language) : string :=
  path_join os tempdir ("main." ++ Language_value language).

(** Lines 60 to 72: the final classification. In Python [None != 0] holds,
    so the test of line 65 succeeds when no return code is present. *)
Definition classify (result : RunResponse) : RunResponse :=
  if truthy (message result) then result
  else if timeout result then set_message "Time limit exceeded" result
  else if negb match return_code result with
               | Some code => code =? 0
               | None => false
               end
       then set_message "Runtime error" result
  else match return_code result with
       | None => set_message "Server error" result
       | Some _ => set_message "Success" result
       end.

(** [run_code]; [run_command] is called with its defaults [timeout=5] and
    [memory_limit=1000]. *)
Definition run_code (request_data : RunRequest) : RunResponse :=
  let source_code := source_code request_data in
  let input_data := input_data request_data in
  let language := language request_data in
  let tempdir := mkdtemp os "codeforge_" in
  let file_name := write_source_code_to_file source_code tempdir language in
  let command := get_command_for_language file_name language in
  let result := run_command tempdir 5 1000 command input_data in
  classify result.

End ExecutionCore.

(** * Vocabulary of the properties *)

(** ** Telemetry fields and tokens *)

(** Decimal digits only. *)
Fixpoint all_digits (s : string) : bool :=
  match s with
  | EmptyString => true
  | String c rest => (isdigit c && all_digits rest)%bool
  end.

Fixpoint decimal_value_from (acc : Z) (s : string) : Z :=
  match s with
  | EmptyString => acc
  | String c rest => decimal_value_from (10 * acc + digit_value c) rest
  end.

(** The number a text of decimal digits denotes. *)
Definition decimal_value (s : string) : Z := decimal_value_from 0 s.

(** A numeric field of a telemetry line: between one and 300 decimal
    digits. Such a field is below every digit limit of [int], and its value
    is far from the largest float. *)
Definition numeric_field (s : string) : bool :=
  (truthy s && all_digits s && (String.length s <=? 300)%nat)%bool.

(** A field of exactly [n] decimal digits. *)
Definition digits_field (n : nat) (s : string) : bool :=
  (all_digits s && (String.length s =? n)%nat)%bool.

(** The two shapes of the elapsed-time token, [H:MM:SS.cc] and [M:SS.cc]. *)
Definition token_hms (h m s cc : string) : string :=
  h ++ ":" ++ m ++ ":" ++ s ++ "." ++ cc.

Definition token_ms (m s cc : string) : string :=
  m ++ ":" ++ s ++ "." ++ cc.

(** The elapsed-time token with its optional hours. *)
Definition elapsed_token (hours : option string) (m s cc : string) : string :=
  match hours with
  | Some h => token_hms h m s cc
  | None => token_ms m s cc
  end.

Definition optional_field (hours : option string) : bool :=
  match hours with
  | Some h => numeric_field h
  | None => true
  end.

Definition hours_value (hours : option string) : Z :=
  match hours with
  | Some h => decimal_value h
  | None => 0
  end.

(** ** Floats of the specification *)

(** The float a decimal literal denotes: [decimal 205 2] is [2.05]. *)
Definition decimal (digits : Z) (places : Z) : spec_float :=
  nearest_quotient false digits (10 ^ places).

(** The elapsed time as the specification words it, hours x 3600 +
    minutes x 60 + seconds + fractional / 100, in Python's arithmetic: an
    [int] plus the [float] quotient of two [int]s. *)
Definition elapsed_formula (hours minutes seconds fractional : Z) : number :=
  PyFloat (float_add (nearest_of_Z (hours * 3600 + minutes * 60 + seconds))
                     (nearest_quotient false fractional 100)).

(** The memory figure in megabytes: kilobytes / 1024. *)
Definition megabytes_formula (kilobytes : Z) : spec_float :=
  nearest_quotient false kilobytes 1024.

(** ** Lines of the error stream *)

(** A text that holds no line boundary: a single line. *)
Fixpoint no_linebreak (s : string) : bool :=
  match s with
  | EmptyString => true
  | String c rest => (negb (is_linebreak c) && no_linebreak rest)%bool
  end.

(** A text whose only line boundaries are newline characters. *)
Fixpoint newline_breaks_only (s : string) : bool :=
  match s with
  | EmptyString => true
  | String c rest =>
      ((negb (is_linebreak c) || Ascii.eqb c LF) && newline_breaks_only rest)%bool
  end.

(** ** The worker in two stages

    What the worker obtains before it first assigns to [result] (lines 119
    to 138), and the assignments (lines 140 to 147). [target_body] is the
    first followed by the second (lemma [target_body_stages]). *)
Section Stages.

Variable max_str_digits : N.
Variable os : system.
Variable tempdir : string.
Variable timeout : Z.
Variable memory_limit : Z.

(** Lines 136 to 138: the two tokens of the telemetry line, converted. *)
Definition parse_telemetry (time_output : string) : exc (number * Z) :=
  toks <- unpack2 (split_ws time_output) ;;
  elapsed <- time_to_seconds max_str_digits (fst toks) ;;
  memory <- int max_str_digits (snd toks) ;;
  Ok (elapsed, memory).

Definition acquire (command : list string) (input_string : option string)
  : exc (string * string * Z * number * Z) :=
  proc <- launch os timeout
            (nsjail_cmd tempdir timeout memory_limit ++ time_cmd ++ command)%list
            input_string ;;
  let '(out, err, returncode) := proc in
  tele <- parse_telemetry (snd (split_telemetry err)) ;;
  Ok (out, fst (split_telemetry err), returncode, fst tele, snd tele).

Definition populate (out cleaned : string) (returncode : Z)
           (elapsed : number) (memory : Z) : worker unit :=
  ((if returncode =? 137 then w_assign (set_timeout true) else w_ret tt) ;;
   w_assign (set_stdout out) ;;
   w_assign (set_stderr cleaned) ;;
   w_assign (set_return_code (Some returncode)) ;;
   w_assign (set_elapsed_time (Some (round3 elapsed))) ;;
   megabytes <- w_lift (true_div memory 1024) ;;
   w_assign (set_memory_usage (Some (PyFloat (round3_float megabytes)))))%worker.

(** The telemetry line is missing or malformed: the last line of the error
    stream does not split into exactly two tokens, or its time token does
    not parse. *)
Definition telemetry_malformed (err : string) : bool :=
  match split_ws (snd (split_telemetry err)) with
  | [time_token; _] =>
      match time_to_seconds max_str_digits time_token with
      | Ok _ => false
      | Raise _ => true
      end
  | _ => true
  end.

End Stages.

(** ** Failures of the conversion *)

(** The texts the conversions of a telemetry line raise with. *)
Definition parse_failure_text (max_str_digits : N) (text : string) : Prop :=
  text = "not enough values to unpack (expected 2, got 0)"
  \/ text = "not enough values to unpack (expected 2, got 1)"
  \/ text = "too many values to unpack (expected 2)"
  \/ text = "list index out of range"
  \/ text = "integer division result too large for a float"
  \/ text = "int too large to convert to float"
  \/ (exists s, ValueError text = invalid_literal s)
  \/ (exists n, ValueError text = exceeds_limit max_str_digits n).

(** [m] raises nothing but failures of the conversion, each with one of the
    texts above. *)
Definition raises_only (max_str_digits : N) {A : Type} (m : exc A) : Prop :=
  forall e, m = Raise e ->
  is_TimeoutExpired e = false /\
  parse_failure_text max_str_digits (str_of_exception e).

(** ** The time limit handed to the sandbox *)

Fixpoint strip_prefix (prefix s : string) : option string :=
  match prefix, s with
  | EmptyString, _ => Some s
  | String a prefix', String b s' =>
      if Ascii.eqb a b then strip_prefix prefix' s' else None
  | String _ _, EmptyString => None
  end.

(** The number after [--time_limit=] in an argument vector. *)
Fixpoint sandbox_time_limit (argv : list string) : option Z :=
  match argv with
  | [] => None
  | arg :: rest =>
      match strip_prefix "--time_limit=" arg with
      | Some number => option_map Z.of_int (NilZero.int_of_string number)
      | None => sandbox_time_limit rest
      end
  end.

(** The argument vector [run_code] has launched for a request. *)
Definition run_code_argv (os : system) (request_data : RunRequest) : list string :=
  let tempdir := mkdtemp os "codeforge_" in
  (nsjail_cmd tempdir 5 1000 ++ time_cmd
   ++ get_command_for_language os
        (write_source_code_to_file os (source_code request_data) tempdir
           (language request_data))
        (language request_data))%list.

(** ** Example runs *)

(** A POSIX host on which the launched process has a fixed outcome. *)
Definition example_system (outcome : process_outcome) (still_alive : bool)
  : system :=
  {| win32 := false;
     path_join := fun dir name => dir ++ "/" ++ name;
     mkdtemp := fun prefix => "/tmp/" ++ prefix ++ "k3x9";
     popen_communicate := fun _ _ _ => outcome;
     is_alive_after_join := fun _ => still_alive |}.

Definition example_request : RunRequest :=
  {| source_code := "print(input())";
     input_data := Some "42";
     language := PYTHON;
     username := None |}.

Definition example_tempdir : string := "/tmp/codeforge_k3x9".

Definition example_command : list string :=
  [".venv/Scripts/python3"; "/tmp/codeforge_k3x9/main.py"].

(** [c * n] for a one-character text [c]. *)
Fixpoint replicate (n : nat) (c : ascii) : string :=
  match n with
  | O => EmptyString
  | S n' => String c (replicate n' c)
  end.

(** The error streams of the two parser examples. *)
Definition stderr_three_lines : string :=
  "line1" ++ nl ++ "line2" ++ nl ++ "0:02.50 51200".

Definition stderr_one_line : string := "0:00.10 1024".

(** A run whose telemetry line is "1:02:03.45 2048". *)
Definition example_hms_system : system :=
  example_system (Completed "42" ("warning" ++ nl ++ "1:02:03.45 2048" ++ nl) 0)
                 false.

(** The sandbox killed the timing wrapper before it wrote its line. *)
Definition example_no_telemetry (returncode : Z) : system :=
  example_system (Completed "42" "" returncode) false.

(** A memory figure of 401 digits. *)
Definition example_huge_memory : system :=
  example_system (Completed "42" ("0:00.10 1" ++ replicate 400 "0") 0) false.

(** [communicate] ran into its time-out. *)
Definition example_timed_out : system :=
  example_system
    (CommunicateFailed (TimeoutExpired "Command timed out after 5 seconds"))
    true.

(** [communicate] raised an exception whose text is empty, as that of
    [MemoryError()] is. *)
Definition example_empty_text : system :=
  example_system (CommunicateFailed (OtherException "")) false.

(** A result with the timed-out flag set and a non-zero return code. *)
Definition example_timed_out_with_code : RunResponse :=
  set_return_code (Some 1) (set_timeout true (new_RunResponse "")).

(** ** Further vocabulary *)

(** An elapsed-time token without fractional part, [H:MM:SS] or [M:SS]. *)
Definition whole_token (hours : option string) (m s : string) : string :=
  match hours with
  | Some h => h ++ ":" ++ m ++ ":" ++ s
  | None => m ++ ":" ++ s
  end.

(** The text of the [ValueError] of an unpacking into two names from
    [n <> 2] values. *)
Definition unpack_text (n : nat) : string :=
  if (n <? 2)%nat
  then "not enough values to unpack (expected 2, got "
         ++ str_of_int (Z.of_nat n) ++ ")"
  else "too many values to unpack (expected 2)".

(** The text ends in a line boundary. *)
Fixpoint ends_in_linebreak (s : string) : bool :=
  match s with
  | EmptyString => false
  | String c EmptyString => is_linebreak c
  | String _ rest => ends_in_linebreak rest
  end.

(** The result of a run in which nothing was assigned but the timed-out
    flag and the message. *)
Definition bare_result (timed_out : bool) (msg : string) : RunResponse :=
  {| stdout := ""; stderr := ""; return_code := None;
     elapsed_time := None; memory_usage := None;
     timeout := timed_out; test_passed := false; message := msg |}.

(** The label of a result without message. *)
Definition label (timed_out : bool) (returncode : Z) : string :=
  if timed_out then "Time limit exceeded"
  else if returncode =? 0 then "Success"
  else "Runtime error".

(** The number that follows [prefix] in the first argument that starts
    with it. *)
Fixpoint flag_value (prefix : string) (argv : list string) : option Z :=
  match argv with
  | [] => None
  | arg :: rest =>
      match strip_prefix prefix arg with
      | Some number => option_map Z.of_int (NilZero.int_of_string number)
      | None => flag_value prefix rest
      end
  end.

(** ** Rounding to three decimals, as the specification words it *)

(** The elapsed time of [elapsed_formula] as a float. *)
Definition elapsed_float (hours minutes seconds fractional : Z) : spec_float :=
  float_add (nearest_of_Z (hours * 3600 + minutes * 60 + seconds))
            (nearest_quotient false fractional 100).

(** [k] is the whole number of thousandths nearest to the magnitude
    [m * 2 ^ e], the even one of the two when both are equally near. With
    [num / den] the magnitude as a fraction, the distance of [k / 1000] from
    it is [|1000 * num - k * den| / (1000 * den)]. *)
Definition nearest_thousandth (m : positive) (e : Z) (k : Z) : Prop :=
  let num := Zpos m * 2 ^ Z.max e 0 in
  let den := 2 ^ Z.max (- e) 0 in
  0 <= k /\
  2 * Z.abs (1000 * num - k * den) <= den /\
  (2 * Z.abs (1000 * num - k * den) = den -> Z.even k = true).

(** The float nearest to [k / 1000], with a sign: the float the decimal
    literal of [k] thousandths denotes. *)
Definition float_of_thousandths (negative : bool) (k : Z) : spec_float :=
  nearest_quotient negative k 1000.

(** [y] is [x] rounded to three decimal places: the float of the nearest
    whole number of thousandths; zeros, infinities and NaN stay. *)
Definition rounded_to_3_decimals (x y : spec_float) : Prop :=
  match x with
  | S754_finite s m e =>
      exists k, nearest_thousandth m e k /\ y = float_of_thousandths s k
  | _ => y = x
  end.

(** A run whose telemetry line is "0:01.14 1": 1.14 seconds, one kilobyte. *)
Definition example_rounding_system : system :=
  example_system (Completed "42" "0:01.14 1" 0) false.

(** * Facts on binary64 rounding *)

Module FloatFacts.

Lemma Zdigits2_nonneg m : 0 <= Zdigits2 m.
Proof. destruct m; simpl; lia. Qed.

Lemma digits2_pos_log2 p : Zpos (digits2_pos p) = Z.log2 (Zpos p) + 1.
Proof.
  induction p as [p IH | p IH |]; simpl digits2_pos.
  - rewrite Pos2Z.inj_succ, IH.
    change (Z.log2 (Zpos p~1)) with (Zpos (Pos.size p)).
    destruct p; simpl; lia.
  - rewrite Pos2Z.inj_succ, IH.
    change (Z.log2 (Zpos p~0)) with (Zpos (Pos.size p)).
    destruct p; simpl; lia.
  - reflexivity.
Qed.

(** A non-negative integer of [Zdigits2 m] binary digits is below [2 ^ k]
    exactly when it has at most [k] digits. *)
Lemma Zdigits2_le m k : 0 <= m -> 0 <= k -> (Zdigits2 m <= k <-> m < 2 ^ k).
Proof.
  intros Hm Hk. destruct m as [| p | p]; try lia.
  - simpl. split; intros; [apply Z.pow_pos_nonneg|]; lia.
  - simpl Zdigits2. rewrite digits2_pos_log2.
    rewrite (Z.log2_lt_pow2 (Zpos p) k) by lia. lia.
Qed.

Lemma Zdigits2_bound m : 0 <= m -> m < 2 ^ Zdigits2 m.
Proof.
  intros Hm. apply Zdigits2_le; auto using Zdigits2_nonneg. lia.
Qed.


Lemma shr_1_m mrs : 0 <= shr_m mrs -> shr_m (shr_1 mrs) = shr_m mrs / 2.
Proof.
  destruct mrs as [m r s]; simpl shr_m. intros Hm.
  destruct m as [| [p | p |] | p]; try lia; simpl shr_1; simpl shr_m.
  - reflexivity.
  - rewrite Pos2Z.inj_xI. apply Z.div_unique with 1; lia.
  - rewrite Pos2Z.inj_xO. apply Z.div_unique with 0; lia.
  - reflexivity.
Qed.

Lemma iter_shr_1_m p : forall mrs,
  0 <= shr_m mrs ->
  shr_m (iter_pos shr_1 p mrs) = shr_m mrs / 2 ^ Zpos p.
Proof.
  assert (Hpow : forall q, 0 < 2 ^ Zpos q) by (intros; apply Z.pow_pos_nonneg; lia).
  assert (Hnz : forall q, 2 ^ Zpos q <> 0) by (intros q; specialize (Hpow q); lia).
  assert (Hdiv : forall a q, 0 <= a -> 0 <= a / 2 ^ Zpos q)
    by (intros; apply Z.div_pos; auto).
  induction p as [p IH | p IH |]; intros mrs Hm; simpl iter_pos.
  - assert (H1 : 0 <= shr_m (shr_1 mrs))
      by (rewrite shr_1_m by assumption; apply Z.div_pos; lia).
    rewrite IH by (rewrite IH by assumption; auto).
    rewrite IH, shr_1_m by assumption.
    rewrite !Z.div_div by (auto; lia).
    f_equal.
    replace (Zpos p~1) with (1 + Zpos p + Zpos p) by lia.
    rewrite !Z.pow_add_r by lia. lia.
  - rewrite IH by (rewrite IH by assumption; auto).
    rewrite IH by assumption.
    rewrite !Z.div_div by auto.
    f_equal.
    replace (Zpos p~0) with (Zpos p + Zpos p) by lia.
    rewrite !Z.pow_add_r by lia. lia.
  - rewrite shr_1_m by assumption. reflexivity.
Qed.

Lemma shr_record_of_loc_m m l : shr_m (shr_record_of_loc m l) = m.
Proof. destruct l as [| []]; reflexivity. Qed.

(** The two components of [shr_fexp]: the exponent rises to the least one
    the format allows, the mantissa is divided accordingly. *)
Lemma shr_fexp_spec m e l mrs' e' :
  0 <= m ->
  shr_fexp prec emax m e l = (mrs', e') ->
  e' = Z.max e (fexp prec emax (Zdigits2 m + e)) /\
  shr_m mrs' = m / 2 ^ (e' - e).
Proof.
  intros Hm. unfold shr_fexp, shr.
  destruct (fexp prec emax (Zdigits2 m + e) - e) as [| p | p] eqn:Hn;
    intros [= <- <-].
  - split; [lia|]. replace (e - e) with 0 by lia.
    rewrite Z.div_1_r. apply shr_record_of_loc_m.
  - split; [lia|].
    rewrite iter_shr_1_m by (rewrite shr_record_of_loc_m; assumption).
    rewrite shr_record_of_loc_m. f_equal. f_equal. lia.
  - split; [lia|]. replace (e - e) with 0 by lia.
    rewrite Z.div_1_r. apply shr_record_of_loc_m.
Qed.

Lemma round_nearest_even_bounds m l :
  0 <= m -> m <= round_nearest_even m l <= m + 1.
Proof.
  intros Hm. destruct l as [| []]; simpl; try lia.
  destruct (Z.even m); lia.
Qed.


Lemma fexp_eq x : fexp prec emax x = Z.max (x - 53) (-1074).
Proof. reflexivity. Qed.

(** Rounding [m * 2 ^ e], for [m >= 0] below [2 ^ 1023] in value, yields a
    zero or a finite number: it does not overflow. *)
Lemma binary_round_aux_finite s m e l :
  0 <= m -> e <= 971 -> Zdigits2 m + e <= 1023 ->
  is_finite (binary_round_aux prec emax s m e l) = true.
Proof.
  intros Hm He Hd. unfold binary_round_aux.
  destruct (shr_fexp prec emax m e l) as [mrs1 e1] eqn:E1.
  destruct (shr_fexp_spec _ _ _ _ _ Hm E1) as [He1 Hm1].
  set (m1 := round_nearest_even (shr_m mrs1) (loc_of_shr_record mrs1)).
  assert (Hpow : 0 < 2 ^ (e1 - e)) by (apply Z.pow_pos_nonneg; lia).
  assert (Hm1' : 0 <= shr_m mrs1) by (rewrite Hm1; apply Z.div_pos; lia).
  assert (Hr : shr_m mrs1 <= m1 <= shr_m mrs1 + 1)
    by (apply round_nearest_even_bounds; assumption).
  assert (Hm2 : 0 <= m1) by lia.
  destruct (shr_fexp prec emax m1 e1 loc_Exact) as [mrs2 e2] eqn:E2.
  destruct (shr_fexp_spec _ _ _ _ _ Hm2 E2) as [He2 Hm3].
  assert (Hpow2 : 0 < 2 ^ (e2 - e1)) by (apply Z.pow_pos_nonneg; lia).
  assert (Hm4 : 0 <= shr_m mrs2) by (rewrite Hm3; apply Z.div_pos; lia).
  (* the digits of the rounded mantissa *)
  assert (Hd1 : Zdigits2 m1 + e1 <= Z.max e1 (Zdigits2 m + e) + 1).
  { pose proof (Zdigits2_nonneg m) as Hdm.
    assert (Hk : 0 <= Z.max 0 (Zdigits2 m - (e1 - e))) by lia.
    assert (Hlt : shr_m mrs1 < 2 ^ Z.max 0 (Zdigits2 m - (e1 - e))).
    { rewrite Hm1. apply Z.div_lt_upper_bound; [assumption|].
      rewrite <- Z.pow_add_r by lia.
      eapply Z.lt_le_trans; [apply (Zdigits2_bound m Hm)|].
      apply Z.pow_le_mono_r; lia. }
    assert (Hlt1 : m1 < 2 ^ (Z.max 0 (Zdigits2 m - (e1 - e)) + 1)).
    { rewrite Z.pow_add_r by lia. change (2 ^ 1) with 2. lia. }
    apply Zdigits2_le in Hlt1; lia. }
  rewrite fexp_eq in He1, He2.
  destruct (shr_m mrs2) as [| p | p]; try lia; try reflexivity.
  replace (e2 <=? emax - prec) with true; [reflexivity|].
  symmetry. apply Z.leb_le. unfold emax, prec. lia.
Qed.

Lemma iter_xO_pow m d : Zpos (Pos.iter xO m d) = Zpos m * 2 ^ Zpos d.
Proof.
  induction d as [| d IH] using Pos.peano_ind.
  - simpl. lia.
  - rewrite Pos.iter_succ, Pos2Z.inj_xO, IH, Pos2Z.inj_succ, Z.pow_succ_r; lia.
Qed.

(** No integer below [2 ^ 1023] in absolute value is too large for a float. *)
Lemma nearest_of_Z_finite z :
  Z.abs z < 2 ^ 1023 -> is_finite (nearest_of_Z z) = true.
Proof.
  intros Hz. unfold nearest_of_Z, binary_normalize.
  assert (Hp : forall s p, Zpos p < 2 ^ 1023 ->
                 is_finite (binary_round prec emax s p 0) = true).
  { intros s p Hlt. unfold binary_round.
    pose proof (proj2 (Zdigits2_le (Zpos p) 1023 ltac:(lia) ltac:(lia)) Hlt) as Hd.
    simpl Zdigits2 in Hd. unfold shl_align.
    rewrite fexp_eq, Z.add_0_r, Z.sub_0_r.
    destruct (Z.max (Zpos (digits2_pos p) - 53) (-1074)) as [| q | q] eqn:Hq.
    - apply binary_round_aux_finite; simpl Zdigits2; lia.
    - apply binary_round_aux_finite; simpl Zdigits2; lia.
    - apply binary_round_aux_finite; try lia.
      assert (Hb : Zpos (Pos.iter xO p q) < 2 ^ (Zpos (digits2_pos p) + Zpos q)).
      { rewrite iter_xO_pow, Z.pow_add_r by lia.
        apply Z.mul_lt_mono_pos_r; [apply Z.pow_pos_nonneg; lia|].
        apply (Zdigits2_bound (Zpos p)). lia. }
      apply Zdigits2_le in Hb; lia. }
  destruct z as [| p | p]; [reflexivity | apply Hp | apply Hp]; lia.
Qed.

(** Nor is the quotient of a non-negative integer below [2 ^ 1023] by a
    positive one. *)
Lemma nearest_quotient_finite s a b :
  0 <= a < 2 ^ 1023 -> 0 < b -> is_finite (nearest_quotient s a b) = true.
Proof.
  intros Ha Hb. unfold nearest_quotient, SFdiv_core_binary.
  rewrite !Z.add_0_r, !Z.sub_0_r, fexp_eq.
  set (e' := Z.min (Z.max (Zdigits2 a - Zdigits2 b - 53) (-1074)) 0).
  assert (He : e' <= 0) by (unfold e'; lia).
  set (m' := match 0 - e' with Zpos _ => Z.shiftl a (0 - e') | Z0 => a | Zneg _ => 0 end).
  assert (Hm' : m' = a * 2 ^ (- e')).
  { unfold m'. destruct (0 - e') as [| p | p] eqn:Hs; try lia.
    - replace (- e') with 0 by lia. lia.
    - rewrite Z.shiftl_mul_pow2 by lia. f_equal. f_equal. lia. }
  clearbody m'.
  pose proof (Z.div_eucl_eq m' b ltac:(lia)) as Heq.
  pose proof (Z.mod_pos_bound m' b Hb) as Hmod.
  unfold Z.modulo in Hmod.
  destruct (Z.div_eucl m' b) as [q r].
  assert (Hpow : 0 < 2 ^ (- e')) by (apply Z.pow_pos_nonneg; lia).
  assert (Hq : 0 <= q) by nia.
  apply binary_round_aux_finite; try lia.
  assert (Hqa : q < 2 ^ (Zdigits2 a - e')).
  { pose proof (Zdigits2_bound a ltac:(lia)) as Hda.
    pose proof (Zdigits2_nonneg a).
    replace (Zdigits2 a - e') with (Zdigits2 a + - e') by lia.
    rewrite Z.pow_add_r by lia. nia. }
  pose proof (proj2 (Zdigits2_le a 1023 ltac:(lia) ltac:(lia)) ltac:(lia)).
  apply Zdigits2_le in Hqa; try lia.
  pose proof (Zdigits2_nonneg a). lia.
Qed.

End FloatFacts.

(** ** Facts on the text primitives *)

Ltac by_cases_on_char c :=
  destruct c as [[] [] [] [] [] [] [] []]; try discriminate; try reflexivity.

Lemma isdigit_not_int_isspace c : isdigit c = true -> int_isspace c = false.
Proof. by_cases_on_char c. Qed.

Lemma isdigit_not_isspace c : isdigit c = true -> isspace c = false.
Proof. by_cases_on_char c. Qed.

Lemma isdigit_not_colon c : isdigit c = true -> Ascii.eqb c ":" = false.
Proof. by_cases_on_char c. Qed.

Lemma isdigit_not_dot c : isdigit c = true -> Ascii.eqb c "." = false.
Proof. by_cases_on_char c. Qed.

Lemma isdigit_value c : isdigit c = true -> 0 <= digit_value c <= 9.
Proof.
  destruct c as [[] [] [] [] [] [] [] []]; try discriminate;
    intros _; vm_compute; split; discriminate.
Qed.

Lemma all_digits_no_colon s : all_digits s = true -> contains ":" s = false.
Proof.
  induction s as [| c s IH]; simpl; [reflexivity|].
  intros [Hc Hs]%andb_prop. rewrite isdigit_not_colon, IH by assumption. reflexivity.
Qed.

Lemma all_digits_no_dot s : all_digits s = true -> contains "." s = false.
Proof.
  induction s as [| c s IH]; simpl; [reflexivity|].
  intros [Hc Hs]%andb_prop. rewrite isdigit_not_dot, IH by assumption. reflexivity.
Qed.

Lemma contains_app c a b : contains c (a ++ b) = (contains c a || contains c b)%bool.
Proof.
  induction a as [| x a IH]; simpl; [reflexivity|].
  rewrite IH. apply orb_assoc.
Qed.

(** A text without the separator is a single field. *)
Lemma split_on_absent sep s : contains sep s = false -> split_on sep s = [s].
Proof.
  induction s as [| c s IH]; simpl; [reflexivity|].
  intros [Hc Hs]%orb_false_elim. rewrite Hc, IH by assumption. reflexivity.
Qed.

(** The first field ends at the first separator. *)
Lemma split_on_app sep a b :
  contains sep a = false ->
  split_on sep (a ++ String sep b) = a :: split_on sep b.
Proof.
  induction a as [| c a IH]; simpl.
  - intros _. rewrite Ascii.eqb_refl. reflexivity.
  - intros [Hc Ha]%orb_false_elim. rewrite Hc, IH by assumption. reflexivity.
Qed.

Lemma decimal_value_from_bounds s : forall acc,
  all_digits s = true -> 0 <= acc ->
  acc * 10 ^ Z.of_nat (String.length s) <= decimal_value_from acc s
    < (acc + 1) * 10 ^ Z.of_nat (String.length s).
Proof.
  induction s as [| c s IH]; intros acc Hd Hacc.
  - simpl. lia.
  - simpl in Hd. apply andb_prop in Hd as [Hc Hs].
    pose proof (isdigit_value c Hc) as Hv.
    specialize (IH (10 * acc + digit_value c) Hs ltac:(lia)).
    cbn [decimal_value_from String.length].
    rewrite Nat2Z.inj_succ, Z.pow_succ_r by lia.
    assert (0 < 10 ^ Z.of_nat (String.length s)) by (apply Z.pow_pos_nonneg; lia).
    nia.
Qed.

Lemma numeric_field_value s :
  numeric_field s = true -> 0 <= decimal_value s < 10 ^ 300.
Proof.
  unfold numeric_field. intros [[_ Hd]%andb_prop Hl]%andb_prop.
  apply Nat.leb_le in Hl.
  pose proof (decimal_value_from_bounds s 0 Hd ltac:(lia)) as Hb.
  fold (decimal_value s) in Hb.
  assert (10 ^ Z.of_nat (String.length s) <= 10 ^ 300)
    by (apply Z.pow_le_mono_r; lia).
  lia.
Qed.

Lemma digits_field_value n s :
  digits_field n s = true -> 0 <= decimal_value s < 10 ^ Z.of_nat n.
Proof.
  unfold digits_field. intros [Hd Hl]%andb_prop.
  apply Nat.eqb_eq in Hl. subst n.
  pose proof (decimal_value_from_bounds s 0 Hd ltac:(lia)) as Hb.
  fold (decimal_value s) in Hb. lia.
Qed.

(** ** [int] on decimal fields *)

Lemma scan_digits_all_digits s : forall acc n,
  all_digits s = true ->
  scan_digits s false acc n
  = Some (decimal_value_from acc s, (n + N.of_nat (String.length s))%N, EmptyString).
Proof.
  induction s as [| c s IH]; intros acc n Hd.
  - simpl. rewrite N.add_0_r. reflexivity.
  - simpl in Hd. apply andb_prop in Hd as [Hc Hs].
    cbn [scan_digits]. rewrite Hc, IH by assumption.
    cbn [decimal_value_from String.length]. rewrite Nat2N.inj_succ.
    do 3 f_equal. lia.
Qed.

(** [int] reads a field of decimal digits as the number it denotes; a field
    of at most 640 digits is below every digit limit. *)
Lemma int_numeric_field L s :
  numeric_field s = true -> int L s = Ok (decimal_value s).
Proof.
  unfold numeric_field. intros [[Ht Hd]%andb_prop Hl]%andb_prop.
  apply Nat.leb_le in Hl.
  destruct s as [| c r]; [discriminate|].
  pose proof Hd as Hd'. simpl in Hd'. apply andb_prop in Hd' as [Hc Hr].
  unfold int, int_of_str.
  cbn [skip_spaces]. rewrite (isdigit_not_int_isspace c Hc).
  assert (Hsign : (let '(negative, body) :=
                     match String c r with
                     | String "-" rest => (true, rest)
                     | String "+" rest => (false, rest)
                     | _ => (false, String c r)
                     end in (negative, body)) = (false, String c r)).
  { clear - Hc. destruct c as [[] [] [] [] [] [] [] []]; try discriminate; reflexivity. }
  assert (Hus : Ascii.eqb c underscore = false).
  { clear - Hc. destruct c as [[] [] [] [] [] [] [] []]; try discriminate; reflexivity. }
  destruct (match String c r with
            | String "-" rest => (true, rest)
            | String "+" rest => (false, rest)
            | _ => (false, String c r)
            end) as [negative body] eqn:E.
  injection Hsign as -> ->.
  rewrite Hus, scan_digits_all_digits by assumption.
  assert (Hn : (0 + N.of_nat (String.length (String c r)) =? 0)%N = false).
  { apply N.eqb_neq. simpl String.length. lia. }
  rewrite Hn.
  assert (Hlim : (640 <? 0 + N.of_nat (String.length (String c r)))%N = false).
  { apply N.ltb_ge. lia. }
  rewrite Hlim. reflexivity.
Qed.

Lemma digits_field_numeric n s :
  digits_field n s = true -> (1 <= n <= 300)%nat -> numeric_field s = true.
Proof.
  unfold digits_field, numeric_field. intros [Hd Hl]%andb_prop Hn.
  apply Nat.eqb_eq in Hl. rewrite Hd.
  destruct s as [| c r]; [simpl in Hl; lia|].
  simpl truthy. apply Nat.leb_le. lia.
Qed.

(** ** Python arithmetic on the values of telemetry fields *)

Lemma pow10_300_lt : 3661 * 10 ^ 300 < 2 ^ 1023.
Proof. vm_compute. reflexivity. Qed.

Lemma true_div_nonneg a b :
  0 <= a < 10 ^ 300 -> 0 < b ->
  true_div a b = Ok (nearest_quotient false a b).
Proof.
  intros Ha Hb. unfold true_div.
  replace (a <? 0) with false by (symmetry; apply Z.ltb_ge; lia).
  rewrite Z.abs_eq by lia.
  rewrite FloatFacts.nearest_quotient_finite; [reflexivity | | assumption].
  pose proof pow10_300_lt. lia.
Qed.

Lemma float_of_int_small z :
  0 <= z < 3661 * 10 ^ 300 -> float_of_int z = Ok (nearest_of_Z z).
Proof.
  intros Hz. unfold float_of_int.
  rewrite FloatFacts.nearest_of_Z_finite; [reflexivity|].
  pose proof pow10_300_lt. lia.
Qed.

(** ** [time_to_seconds] on well-formed tokens *)

Section TimeToSeconds.

Variable L : N.

Lemma seconds_part_no_colon s f :
  all_digits s = true -> all_digits f = true ->
  contains ":" (s ++ "." ++ f) = false.
Proof.
  intros Hs Hf. rewrite !contains_app, (all_digits_no_colon s Hs),
    (all_digits_no_colon f Hf). reflexivity.
Qed.

Lemma seconds_part_split s f :
  all_digits s = true -> all_digits f = true ->
  contains "." (s ++ "." ++ f) = true /\
  split_on "." (s ++ "." ++ f) = [s; f].
Proof.
  intros Hs Hf. split.
  - rewrite !contains_app. simpl. apply orb_true_r.
  - change (s ++ "." ++ f) with (s ++ String "." f).
    rewrite split_on_app by (apply all_digits_no_dot; assumption).
    rewrite split_on_absent by (apply all_digits_no_dot; assumption).
    reflexivity.
Qed.

Lemma numeric_field_digits s : numeric_field s = true -> all_digits s = true.
Proof. unfold numeric_field. intros [[_ Hd]%andb_prop _]%andb_prop. exact Hd. Qed.

(** The part of [time_to_seconds] after the optional hours. *)
Lemma time_to_seconds_hms h m s f :
  numeric_field h = true -> numeric_field m = true ->
  numeric_field s = true -> numeric_field f = true ->
  time_to_seconds L (token_hms h m s f)
  = Ok (elapsed_formula (decimal_value h) (decimal_value m)
                        (decimal_value s) (decimal_value f)).
Proof.
  intros Hh Hm Hs Hf.
  pose proof (numeric_field_digits _ Hh) as Dh.
  pose proof (numeric_field_digits _ Hm) as Dm.
  pose proof (numeric_field_digits _ Hs) as Ds.
  pose proof (numeric_field_digits _ Hf) as Df.
  pose proof (numeric_field_value _ Hh) as Vh.
  pose proof (numeric_field_value _ Hm) as Vm.
  pose proof (numeric_field_value _ Hs) as Vs.
  pose proof (numeric_field_value _ Hf) as Vf.
  destruct (seconds_part_split s f Ds Df) as [Hdot Hsplit].
  unfold time_to_seconds, token_hms.
  change (h ++ ":" ++ m ++ ":" ++ s ++ "." ++ f)
    with (h ++ String ":" (m ++ String ":" (s ++ "." ++ f))).
  rewrite !split_on_app by (apply all_digits_no_colon; assumption).
  rewrite split_on_absent by (apply seconds_part_no_colon; assumption).
  cbn [List.length Nat.eqb getitem nth_error exc_bind tl fst snd].
  rewrite (int_numeric_field L h Hh). cbn [exc_bind tl fst snd getitem nth_error].
  rewrite (int_numeric_field L m Hm). cbn [exc_bind getitem nth_error].
  rewrite Hdot, Hsplit. cbn [unpack2 exc_bind fst snd].
  rewrite (int_numeric_field L s Hs). cbn [exc_bind].
  rewrite (int_numeric_field L f Hf). cbn [exc_bind].
  rewrite true_div_nonneg by lia. cbn [exc_bind].
  rewrite float_of_int_small by lia. cbn [exc_bind].
  unfold elapsed_formula. do 3 f_equal.
Qed.

Lemma time_to_seconds_ms m s f :
  numeric_field m = true -> numeric_field s = true -> numeric_field f = true ->
  time_to_seconds L (token_ms m s f)
  = Ok (elapsed_formula 0 (decimal_value m) (decimal_value s) (decimal_value f)).
Proof.
  intros Hm Hs Hf.
  pose proof (numeric_field_digits _ Hm) as Dm.
  pose proof (numeric_field_digits _ Hs) as Ds.
  pose proof (numeric_field_digits _ Hf) as Df.
  pose proof (numeric_field_value _ Hm) as Vm.
  pose proof (numeric_field_value _ Hs) as Vs.
  pose proof (numeric_field_value _ Hf) as Vf.
  destruct (seconds_part_split s f Ds Df) as [Hdot Hsplit].
  unfold time_to_seconds, token_ms.
  change (m ++ ":" ++ s ++ "." ++ f) with (m ++ String ":" (s ++ "." ++ f)).
  rewrite !split_on_app by (apply all_digits_no_colon; assumption).
  rewrite split_on_absent by (apply seconds_part_no_colon; assumption).
  cbn [List.length Nat.eqb getitem nth_error exc_bind tl fst snd].
  rewrite (int_numeric_field L m Hm). cbn [exc_bind getitem nth_error].
  rewrite Hdot, Hsplit. cbn [unpack2 exc_bind fst snd].
  rewrite (int_numeric_field L s Hs). cbn [exc_bind].
  rewrite (int_numeric_field L f Hf). cbn [exc_bind].
  rewrite true_div_nonneg by lia. cbn [exc_bind].
  rewrite float_of_int_small by lia. cbn [exc_bind].
  unfold elapsed_formula. do 3 f_equal.
Qed.

End TimeToSeconds.

Lemma time_to_seconds_token L hours m s f :
  optional_field hours = true -> numeric_field m = true ->
  numeric_field s = true -> numeric_field f = true ->
  time_to_seconds L (elapsed_token hours m s f)
  = Ok (elapsed_formula (hours_value hours) (decimal_value m)
                        (decimal_value s) (decimal_value f)).
Proof.
  destruct hours as [h |]; cbn [optional_field elapsed_token hours_value].
  - apply time_to_seconds_hms.
  - intros _. apply time_to_seconds_ms.
Qed.

(** ** What the conversions of a telemetry line raise *)

Section Failures.

Variable L : N.

Lemma parse_failure_text_diagnostic text :
  parse_failure_text L text -> text <> "" /\ text <> "Server error".
Proof.
  intros [-> | [-> | [-> | [-> | [-> | [-> | [[s H] | [n H]]]]]]]];
    try (split; discriminate).
  - unfold invalid_literal in H. injection H as ->. split; discriminate.
  - unfold exceeds_limit in H. injection H as ->. split; discriminate.
Qed.

Lemma int_raise s e :
  int L s = Raise e ->
  is_TimeoutExpired e = false /\ parse_failure_text L (str_of_exception e).
Proof.
  unfold int, int_of_str.
  destruct (match skip_spaces s with
            | String "-" rest => (true, rest)
            | String "+" rest => (false, rest)
            | _ => (false, skip_spaces s)
            end) as [negative body].
  assert (Hinv : is_TimeoutExpired (invalid_literal s) = false /\
                 parse_failure_text L (str_of_exception (invalid_literal s))).
  { split; [reflexivity|]. do 6 right. left. exists s. reflexivity. }
  destruct body as [| c rest]; [intros [= <-]; exact Hinv |].
  destruct (Ascii.eqb c underscore); [intros [= <-]; exact Hinv |].
  destruct (scan_digits (String c rest) false 0 0) as [[[value digits] unread] |];
    [| intros [= <-]; exact Hinv].
  destruct (digits =? 0)%N; [intros [= <-]; exact Hinv |].
  destruct ((640 <? digits)%N && (0 <? L)%N && (L <? digits)%N).
  - intros [= <-]. split; [reflexivity|]. do 7 right. exists digits. reflexivity.
  - destruct (skip_spaces unread); [discriminate | intros [= <-]; exact Hinv].
Qed.

Lemma getitem_raise (l : list string) i e :
  getitem l i = Raise e ->
  is_TimeoutExpired e = false /\ parse_failure_text L (str_of_exception e).
Proof.
  unfold getitem. destruct (nth_error l i); [discriminate|].
  intros [= <-]. split; [reflexivity|]. do 3 right. left. reflexivity.
Qed.

Lemma unpack2_raise (l : list string) e :
  unpack2 l = Raise e ->
  is_TimeoutExpired e = false /\ parse_failure_text L (str_of_exception e).
Proof.
  destruct l as [| a [| b [| c l]]]; simpl; try discriminate; intros [= <-];
    (split; [reflexivity|]).
  - left. reflexivity.
  - right. left. reflexivity.
  - do 2 right. left. reflexivity.
Qed.

Lemma true_div_raise a b e :
  true_div a b = Raise e ->
  is_TimeoutExpired e = false /\ parse_failure_text L (str_of_exception e).
Proof.
  unfold true_div. destruct (is_finite _); [discriminate|].
  intros [= <-]. split; [reflexivity|]. do 4 right. left. reflexivity.
Qed.

Lemma float_of_int_raise z e :
  float_of_int z = Raise e ->
  is_TimeoutExpired e = false /\ parse_failure_text L (str_of_exception e).
Proof.
  unfold float_of_int. destruct (is_finite _); [discriminate|].
  intros [= <-]. split; [reflexivity|]. do 5 right. left. reflexivity.
Qed.

Lemma raises_only_ok {A : Type} (a : A) : raises_only L (Ok a).
Proof. intros e H. discriminate. Qed.

Lemma raises_only_bind {A B : Type} (m : exc A) (k : A -> exc B) :
  raises_only L m -> (forall a, raises_only L (k a)) -> raises_only L (exc_bind m k).
Proof.
  intros Hm Hk e. destruct m as [a | e']; cbn [exc_bind].
  - apply Hk.
  - intros [= <-]. apply Hm. reflexivity.
Qed.

Ltac raises_only_tac :=
  repeat first
    [ apply raises_only_ok
    | apply raises_only_bind; [| intros ?]
    | (intros ? ?; eapply int_raise; eassumption)
    | (intros ? ?; eapply getitem_raise; eassumption)
    | (intros ? ?; eapply unpack2_raise; eassumption)
    | (intros ? ?; eapply true_div_raise; eassumption)
    | (intros ? ?; eapply float_of_int_raise; eassumption)
    | match goal with
      | |- raises_only _ (if ?c then _ else _) => destruct c
      end ].

Lemma time_to_seconds_raise time_str : raises_only L (time_to_seconds L time_str).
Proof. unfold time_to_seconds. raises_only_tac. Qed.

Lemma parse_telemetry_raise time_output :
  raises_only L (parse_telemetry L time_output).
Proof.
  unfold parse_telemetry, time_to_seconds. raises_only_tac.
Qed.

End Failures.

(** ** The worker, stage by stage *)

Section WorkerFacts.

Variable L : N.
Variable os : system.
Variable tempdir : string.
Variable t : Z.
Variable memory_limit : Z.
Variable command : list string.
Variable input_string : option string.

Lemma target_body_stages (r : RunResponse) :
  target_body L os tempdir t memory_limit command input_string r
  = match acquire L os tempdir t memory_limit command input_string with
    | Raise e => (r, Raise e)
    | Ok (out, cleaned, returncode, elapsed, memory) =>
        populate out cleaned returncode elapsed memory r
    end.
Proof.
  unfold target_body, acquire, parse_telemetry, populate, w_bind, w_lift.
  destruct (launch os t _ input_string) as [[[out err] rc] | e]; cbn [exc_bind];
    [| reflexivity].
  destruct (split_telemetry err) as [cleaned time_output]. cbn [fst snd].
  destruct (unpack2 (split_ws time_output)) as [toks | e]; cbn [exc_bind];
    [| reflexivity].
  destruct (time_to_seconds L (fst toks)) as [elapsed | e]; cbn [exc_bind];
    [| reflexivity].
  destruct (int L (snd toks)) as [memory | e]; cbn [exc_bind fst snd];
    reflexivity.
Qed.

(** The assignments when the memory figure converts. *)
Lemma populate_ok out cleaned returncode elapsed memory megabytes r :
  true_div memory 1024 = Ok megabytes ->
  populate out cleaned returncode elapsed memory r
  = ({| stdout := out;
        stderr := cleaned;
        return_code := Some returncode;
        elapsed_time := Some (round3 elapsed);
        memory_usage := Some (PyFloat (round3_float megabytes));
        timeout := (returncode =? 137) || timeout r;
        test_passed := test_passed r;
        message := message r |}, Ok tt).
Proof.
  intros Hdiv. unfold populate, w_bind, w_lift, w_assign, w_ret. rewrite Hdiv.
  destruct (returncode =? 137); reflexivity.
Qed.

(** The assignments when the division of line 147 raises: the four fields
    assigned before it keep their new values. *)
Lemma populate_raise out cleaned returncode elapsed memory e r :
  true_div memory 1024 = Raise e ->
  populate out cleaned returncode elapsed memory r
  = ({| stdout := out;
        stderr := cleaned;
        return_code := Some returncode;
        elapsed_time := Some (round3 elapsed);
        memory_usage := memory_usage r;
        timeout := (returncode =? 137) || timeout r;
        test_passed := test_passed r;
        message := message r |}, Raise e).
Proof.
  intros Hdiv. unfold populate, w_bind, w_lift, w_assign, w_ret. rewrite Hdiv.
  destruct (returncode =? 137); reflexivity.
Qed.

(** A raise before the first assignment reaches a handler with [result]
    as it was. *)
Lemma target_acquire_raise e r :
  acquire L os tempdir t memory_limit command input_string = Raise e ->
  target L os tempdir t memory_limit command input_string r
  = if is_TimeoutExpired e then set_timeout true r
    else set_message (str_of_exception e) r.
Proof.
  intros Ha. unfold target. rewrite target_body_stages, Ha. reflexivity.
Qed.

Lemma target_acquire_ok out cleaned returncode elapsed memory megabytes r :
  acquire L os tempdir t memory_limit command input_string
    = Ok (out, cleaned, returncode, elapsed, memory) ->
  true_div memory 1024 = Ok megabytes ->
  target L os tempdir t memory_limit command input_string r
  = {| stdout := out;
       stderr := cleaned;
       return_code := Some returncode;
       elapsed_time := Some (round3 elapsed);
       memory_usage := Some (PyFloat (round3_float megabytes));
       timeout := (returncode =? 137) || timeout r;
       test_passed := test_passed r;
       message := message r |}.
Proof.
  intros Ha Hdiv. unfold target.
  rewrite target_body_stages, Ha, (populate_ok _ _ _ _ _ _ _ Hdiv). reflexivity.
Qed.

(** What [acquire] returns on a process that ended. *)
Lemma acquire_completed out err returncode :
  popen_communicate os
    (nsjail_cmd tempdir t memory_limit ++ time_cmd ++ command)%list
    input_string t = Completed out err returncode ->
  acquire L os tempdir t memory_limit command input_string
  = (tele <- parse_telemetry L (snd (split_telemetry err)) ;;
     Ok (out, fst (split_telemetry err), returncode, fst tele, snd tele)).
Proof.
  intros Hp. unfold acquire, launch. rewrite Hp. reflexivity.
Qed.

End WorkerFacts.

(** * The supervisor's result on a process that ended *)

Section Supervisor.

Variable L : N.
Variable os : system.
Variable tempdir : string.
Variable t : Z.
Variable memory_limit : Z.
Variable command : list string.
Variable input_string : option string.

(** The bounded join adds at most the timed-out flag. *)
Lemma run_command_fields :
  let worker_result :=
    target L os tempdir t memory_limit command input_string (new_RunResponse "") in
  let r := run_command L os tempdir t memory_limit command input_string in
  stdout r = stdout worker_result /\
  stderr r = stderr worker_result /\
  return_code r = return_code worker_result /\
  elapsed_time r = elapsed_time worker_result /\
  memory_usage r = memory_usage worker_result /\
  message r = message worker_result /\
  timeout r = (is_alive_after_join os (watchdog_window t) || timeout worker_result)%bool.
Proof.
  cbv zeta. unfold run_command.
  destruct (is_alive_after_join os (watchdog_window t)); cbn [orb];
    repeat split; reflexivity.
Qed.

(** A process that ended with a telemetry line that converts: every field
    of the result. *)
Lemma run_command_completed out err returncode elapsed memory megabytes :
  popen_communicate os
    (nsjail_cmd tempdir t memory_limit ++ time_cmd ++ command)%list
    input_string t = Completed out err returncode ->
  parse_telemetry L (snd (split_telemetry err)) = Ok (elapsed, memory) ->
  true_div memory 1024 = Ok megabytes ->
  run_command L os tempdir t memory_limit command input_string
  = {| stdout := out;
       stderr := fst (split_telemetry err);
       return_code := Some returncode;
       elapsed_time := Some (round3 elapsed);
       memory_usage := Some (PyFloat (round3_float megabytes));
       timeout := (is_alive_after_join os (watchdog_window t)
                   || (returncode =? 137))%bool;
       test_passed := false;
       message := "" |}.
Proof.
  intros Hp Ht Hd. unfold run_command.
  rewrite (target_acquire_ok L os tempdir t memory_limit command input_string
             out (fst (split_telemetry err)) returncode elapsed memory megabytes).
  - cbn [timeout test_passed message new_RunResponse].
    destruct (is_alive_after_join os (watchdog_window t)), (returncode =? 137);
      reflexivity.
  - rewrite (acquire_completed L os tempdir t memory_limit command input_string
               out err returncode Hp), Ht. reflexivity.
  - exact Hd.
Qed.

End Supervisor.

(** * The Outcome Classifier *)

Lemma truthy_empty s : truthy s = false <-> s = "".
Proof. destruct s; simpl; split; intros; congruence. Qed.

(** The message the classifier gives to a result that has none. *)
Lemma classify_empty_message r :
  message r = "" ->
  message (classify r)
  = if timeout r then "Time limit exceeded"
    else match return_code r with
         | Some 0 => "Success"
         | Some _ | None => "Runtime error"
         end.
Proof.
  intros Hm. unfold classify. rewrite Hm. cbn [truthy].
  destruct (timeout r); [reflexivity|].
  destruct (return_code r) as [[| p | p] |]; reflexivity.
Qed.

(** C1 (as the code behaves). A result without message, without time-out
    and without return code is labelled "Runtime error": the test
    [result.return_code != 0] of line 65 holds for [None], so the branch of
    line 67 that would write "Server error" is never taken. *)
Theorem classify_absent_return_code (r : RunResponse) :
  message r = "" -> timeout r = false -> return_code r = None ->
  message (classify r) = "Runtime error" /\
  message (classify r) <> "Server error".
Proof.
  intros Hm Ht Hc. rewrite (classify_empty_message r Hm), Ht, Hc.
  split; [reflexivity | discriminate].
Qed.

Lemma classify_absent_return_code_witness :
  message (run_command 4300 example_empty_text example_tempdir 5 1000
             example_command (Some "42")) = "" /\
  timeout (run_command 4300 example_empty_text example_tempdir 5 1000
             example_command (Some "42")) = false /\
  return_code (run_command 4300 example_empty_text example_tempdir 5 1000
                 example_command (Some "42")) = None /\
  message (run_code 4300 example_empty_text example_request) = "Runtime error" /\
  message (run_code 4300 example_empty_text example_request) <> "Server error".
Proof.
  repeat (split; [reflexivity|]).
  apply (classify_absent_return_code
           (run_command 4300 example_empty_text example_tempdir 5 1000
              example_command (Some "42")));
    reflexivity.
Defined.

(** C4. A result without message whose timed-out flag is set is labelled
    "Time limit exceeded", whatever its return code is: zero, non-zero or
    absent. *)
Theorem classify_timeout_dominates (r : RunResponse) :
  message r = "" -> timeout r = true ->
  message (classify r) = "Time limit exceeded".
Proof.
  intros Hm Ht. rewrite (classify_empty_message r Hm), Ht. reflexivity.
Qed.

Lemma classify_timeout_dominates_witness :
  message example_timed_out_with_code = "" /\
  timeout example_timed_out_with_code = true /\
  return_code example_timed_out_with_code = Some 1 /\
  message (classify example_timed_out_with_code) = "Time limit exceeded".
Proof.
  repeat (split; [reflexivity|]).
  apply classify_timeout_dominates; reflexivity.
Defined.

(** C5. The classification writes [message] exactly when it is empty, and
    touches no other field. *)
Theorem classify_frame (r : RunResponse) :
  stdout (classify r) = stdout r /\
  stderr (classify r) = stderr r /\
  return_code (classify r) = return_code r /\
  elapsed_time (classify r) = elapsed_time r /\
  memory_usage (classify r) = memory_usage r /\
  timeout (classify r) = timeout r /\
  test_passed (classify r) = test_passed r /\
  (message (classify r) <> message r <-> message r = "").
Proof.
  assert (Hframe : classify r = set_message (message (classify r)) r).
  { unfold classify. destruct (truthy (message r)); [destruct r; reflexivity|].
    destruct (timeout r); [reflexivity|].
    destruct (return_code r) as [[| p | p] |]; reflexivity. }
  repeat (split; [rewrite Hframe; reflexivity|]).
  destruct (message r) as [| c s] eqn:Hm.
  - rewrite (classify_empty_message r Hm).
    split; [reflexivity|]. intros _.
    destruct (timeout r); [discriminate|].
    destruct (return_code r) as [[| p | p] |]; discriminate.
  - unfold classify. rewrite Hm. cbn [truthy]. rewrite Hm.
    split; [congruence | discriminate].
Qed.

(** * The Resource-Usage Parser *)

Lemma split_telemetry_last_line err lines tele :
  splitlines err = (lines ++ [tele])%list -> lines <> [] ->
  split_telemetry err = (join nl lines, tele).
Proof.
  intros Hs Hl. unfold split_telemetry. rewrite Hs.
  rewrite removelast_last, last_last, length_app. cbn [List.length].
  destruct lines as [| l ls]; [congruence|].
  cbn [List.length]. 
  replace (1 <? S (List.length ls) + 1)%nat with true; [reflexivity|].
  symmetry. apply Nat.ltb_lt. lia.
Qed.

Lemma split_telemetry_single_line err line :
  splitlines err = [line] -> split_telemetry err = ("", err).
Proof. intros Hs. unfold split_telemetry. rewrite Hs. reflexivity. Qed.

(** The floats of the examples, as [float.hex] shows them: 2.5 is
    0x1.4000000000000p+1, 50.0 is 0x1.9000000000000p+5, 0.1 is
    0x1.999999999999ap-4, 1.0 is 0x1.0000000000000p+0 and 2.05 is
    0x1.0666666666666p+1. *)
Lemma decimal_literals :
  decimal 25 1 = S754_finite false 0x14000000000000 (-51) /\
  decimal 500 1 = S754_finite false 0x19000000000000 (-47) /\
  decimal 1 1 = S754_finite false 0x1999999999999a (-56) /\
  decimal 10 1 = S754_finite false 0x10000000000000 (-52) /\
  decimal 205 2 = S754_finite false 0x10666666666666 (-51).
Proof. repeat split; vm_compute; reflexivity. Qed.

Lemma parse_three_lines L :
  split_telemetry stderr_three_lines
    = ("line1" ++ nl ++ "line2", "0:02.50 51200") /\
  parse_telemetry L "0:02.50 51200"
    = Ok (elapsed_formula 0 0 2 50, 51200) /\
  round3 (elapsed_formula 0 0 2 50) = PyFloat (decimal 25 1) /\
  true_div 51200 1024 = Ok (megabytes_formula 51200) /\
  round3_float (megabytes_formula 51200) = decimal 500 1.
Proof. repeat split; vm_compute; reflexivity. Qed.

Lemma parse_one_line L :
  split_telemetry stderr_one_line = ("", "0:00.10 1024") /\
  parse_telemetry L "0:00.10 1024" = Ok (elapsed_formula 0 0 0 10, 1024) /\
  round3 (elapsed_formula 0 0 0 10) = PyFloat (decimal 1 1) /\
  true_div 1024 1024 = Ok (megabytes_formula 1024) /\
  round3_float (megabytes_formula 1024) = decimal 10 1.
Proof. repeat split; vm_compute; reflexivity. Qed.

Lemma splitlines_single_line s :
  no_linebreak s = true -> s <> "" -> splitlines s = [s].
Proof.
  induction s as [| c s IH]; [congruence|].
  cbn [no_linebreak splitlines]. intros [Hc Hs]%andb_prop _.
  apply negb_true_iff in Hc. rewrite Hc.
  destruct s as [| c' s']; [reflexivity|].
  rewrite IH by (assumption || discriminate). reflexivity.
Qed.

Lemma join_cons_char sep c line lines :
  join sep (String c line :: lines) = String c (join sep (line :: lines)).
Proof. destruct lines; reflexivity. Qed.

(** The lines of a text that ends in a newline followed by one more line. *)
Lemma splitlines_body_then_line body tele :
  newline_breaks_only body = true ->
  no_linebreak tele = true -> tele <> "" ->
  exists lines,
    splitlines (body ++ String LF tele) = (lines ++ [tele])%list /\
    lines <> [] /\ join nl lines = body.
Proof.
  intros Hb Ht Hne. induction body as [| c body IH].
  - exists [""]. cbn [append splitlines].
    replace (is_linebreak LF) with true by reflexivity.
    destruct tele as [| c' tele']; [congruence|].
    replace (Ascii.eqb LF CR) with false by reflexivity. cbn [andb].
    rewrite (splitlines_single_line _ Ht Hne).
    split; [reflexivity|]. split; [discriminate | reflexivity].
  - cbn [newline_breaks_only] in Hb. apply andb_prop in Hb as [Hc Hb].
    destruct (IH Hb) as (lines & Hl & Hn & Hj).
    cbn [append splitlines].
    destruct (is_linebreak c) eqn:Hbr.
    + cbn [negb orb] in Hc. apply Ascii.eqb_eq in Hc. subst c.
      destruct (body ++ String LF tele) as [| c' rest] eqn:Hrest.
      { destruct body; discriminate. }
      replace (Ascii.eqb LF CR) with false by reflexivity. cbn [andb].
      rewrite Hl. exists ("" :: lines). split; [reflexivity|].
      split; [discriminate|].
      destruct lines as [| l ls]; [congruence|].
      cbn [join]. cbn [append]. rewrite <- Hj. reflexivity.
    + rewrite Hl. destruct lines as [| l ls]; [congruence|].
      exists (String c l :: ls). split; [reflexivity|].
      split; [discriminate|].
      rewrite join_cons_char, Hj. reflexivity.
Qed.

Lemma split_telemetry_body_then_line body tele :
  newline_breaks_only body = true ->
  no_linebreak tele = true -> tele <> "" ->
  split_telemetry (body ++ nl ++ tele) = (body, tele).
Proof.
  intros Hb Ht Hne.
  destruct (splitlines_body_then_line body tele Hb Ht Hne) as (lines & Hl & Hn & Hj).
  change (body ++ nl ++ tele) with (body ++ String LF tele).
  rewrite (split_telemetry_last_line _ lines tele Hl Hn), Hj. reflexivity.
Qed.

(** C6. The last line of an error stream of several lines is the telemetry
    and the lines before it, joined by newlines, are the cleaned stream; an
    error stream of one line is telemetry as a whole and the cleaned stream
    is empty. On "line1\nline2\n0:02.50 51200" the result carries the
    cleaned stream "line1\nline2", 2.5 seconds and 50.0 MB; on
    "0:00.10 1024" it carries "", 0.1 seconds and 1.0 MB. *)
Theorem parser_takes_last_line :
  (forall err lines tele,
      splitlines err = (lines ++ [tele])%list -> lines <> [] ->
      split_telemetry err = (join nl lines, tele)) /\
  (forall err line,
      splitlines err = [line] -> split_telemetry err = ("", err)) /\
  (forall body tele,
      newline_breaks_only body = true ->
      no_linebreak tele = true -> tele <> "" ->
      split_telemetry (body ++ nl ++ tele) = (body, tele)) /\
  (forall L os tempdir t memory_limit command input_string out returncode,
      popen_communicate os
        (nsjail_cmd tempdir t memory_limit ++ time_cmd ++ command)%list
        input_string t = Completed out stderr_three_lines returncode ->
      let r := run_command L os tempdir t memory_limit command input_string in
      stderr r = "line1" ++ nl ++ "line2" /\
      elapsed_time r = Some (PyFloat (decimal 25 1)) /\
      memory_usage r = Some (PyFloat (decimal 500 1))) /\
  (forall L os tempdir t memory_limit command input_string out returncode,
      popen_communicate os
        (nsjail_cmd tempdir t memory_limit ++ time_cmd ++ command)%list
        input_string t = Completed out stderr_one_line returncode ->
      let r := run_command L os tempdir t memory_limit command input_string in
      stderr r = "" /\
      elapsed_time r = Some (PyFloat (decimal 1 1)) /\
      memory_usage r = Some (PyFloat (decimal 10 1))).
Proof.
  split; [exact split_telemetry_last_line|].
  split; [exact split_telemetry_single_line|].
  split; [exact split_telemetry_body_then_line|].
  split.
  - intros L os tempdir t memory_limit command input_string out returncode Hp.
    destruct (parse_three_lines L) as (Hs & Ht & Hr & Hd & Hm).
    cbv zeta.
    rewrite (run_command_completed L os tempdir t memory_limit command
               input_string out stderr_three_lines returncode
               (elapsed_formula 0 0 2 50) 51200 (megabytes_formula 51200) Hp);
      [| rewrite Hs; exact Ht | exact Hd].
    cbn [stderr elapsed_time memory_usage]. rewrite Hs, Hr, Hm.
    repeat split; reflexivity.
  - intros L os tempdir t memory_limit command input_string out returncode Hp.
    destruct (parse_one_line L) as (Hs & Ht & Hr & Hd & Hm).
    cbv zeta.
    rewrite (run_command_completed L os tempdir t memory_limit command
               input_string out stderr_one_line returncode
               (elapsed_formula 0 0 0 10) 1024 (megabytes_formula 1024) Hp);
      [| rewrite Hs; exact Ht | exact Hd].
    cbn [stderr elapsed_time memory_usage]. rewrite Hs, Hr, Hm.
    repeat split; reflexivity.
Qed.

Lemma parser_takes_last_line_witness :
  popen_communicate (example_system (Completed "42" stderr_three_lines 0) false)
    (nsjail_cmd example_tempdir 5 1000 ++ time_cmd ++ example_command)%list
    (Some "42") 5 = Completed "42" stderr_three_lines 0 /\
  stderr (run_command 4300 (example_system (Completed "42" stderr_three_lines 0) false)
            example_tempdir 5 1000 example_command (Some "42"))
    = "line1" ++ nl ++ "line2" /\
  elapsed_time (run_command 4300
                  (example_system (Completed "42" stderr_three_lines 0) false)
                  example_tempdir 5 1000 example_command (Some "42"))
    = Some (PyFloat (decimal 25 1)) /\
  memory_usage (run_command 4300
                  (example_system (Completed "42" stderr_three_lines 0) false)
                  example_tempdir 5 1000 example_command (Some "42"))
    = Some (PyFloat (decimal 500 1)).
Proof.
  split; [reflexivity|].
  apply (proj1 (proj2 (proj2 (proj2 parser_takes_last_line)))
           4300%N (example_system (Completed "42" stderr_three_lines 0) false)
           example_tempdir 5 1000 example_command (Some "42") "42" 0).
  reflexivity.
Defined.

(** * Elapsed time and memory *)

(** ** [round(x, 3)] rounds to the nearest thousandth *)

Lemma div_half_even_nearest n d :
  0 <= n -> 0 < d ->
  0 <= div_half_even n d /\
  2 * Z.abs (n - div_half_even n d * d) <= d /\
  (2 * Z.abs (n - div_half_even n d * d) = d ->
   Z.even (div_half_even n d) = true).
Proof.
  intros Hn Hd. unfold div_half_even.
  pose proof (Z.div_mod n d ltac:(lia)) as Hdm.
  pose proof (Z.mod_pos_bound n d Hd) as Hmod.
  assert (Hq : 0 <= n / d) by (apply Z.div_pos; lia).
  destruct (2 * (n mod d) ?= d) eqn:Hc.
  - apply Z.compare_eq in Hc.
    destruct (Z.even (n / d)) eqn:Hev.
    + repeat split; [lia | nia | intros _; exact Hev].
    + repeat split; [lia | nia |].
      intros _. rewrite Z.add_1_r, Z.even_succ, <- Z.negb_even, Hev. reflexivity.
  - rewrite Z.compare_lt_iff in Hc. repeat split; [lia | nia | nia].
  - rewrite Z.compare_gt_iff in Hc. repeat split; [lia | nia | nia].
Qed.

(** [round3_float] meets the specification's rounding on every float. *)
Lemma round3_float_rounded x : rounded_to_3_decimals x (round3_float x).
Proof.
  destruct x as [s | s | | s m e]; try reflexivity.
  cbn [rounded_to_3_decimals round3_float].
  destruct (0 <=? e) eqn:He.
  - apply Z.leb_le in He. exists (Zpos m * 1000 * 2 ^ e).
    split; [| reflexivity].
    unfold nearest_thousandth. cbv zeta.
    rewrite (Z.max_l e 0), (Z.max_r (- e) 0) by lia.
    change (2 ^ 0) with 1.
    assert (0 < 2 ^ e) by (apply Z.pow_pos_nonneg; lia).
    repeat split; [nia | | ].
    + replace (1000 * (Zpos m * 2 ^ e) - Zpos m * 1000 * 2 ^ e * 1) with 0 by ring.
      simpl. lia.
    + replace (1000 * (Zpos m * 2 ^ e) - Zpos m * 1000 * 2 ^ e * 1) with 0 by ring.
      simpl. discriminate.
  - apply Z.leb_gt in He.
    exists (div_half_even (Zpos m * 1000) (2 ^ (- e))).
    split; [| reflexivity].
    unfold nearest_thousandth. cbv zeta.
    rewrite (Z.max_r e 0), (Z.max_l (- e) 0) by lia.
    change (2 ^ 0) with 1.
    assert (Hd : 0 < 2 ^ (- e)) by (apply Z.pow_pos_nonneg; lia).
    replace (1000 * (Zpos m * 1)) with (Zpos m * 1000) by ring.
    apply div_half_even_nearest; lia.
Qed.

(** The nearest thousandth is unique: the specification fixes the rounded
    value. *)
Lemma nearest_thousandth_unique m e k k' :
  nearest_thousandth m e k -> nearest_thousandth m e k' -> k = k'.
Proof.
  unfold nearest_thousandth. cbv zeta.
  set (num := Zpos m * 2 ^ Z.max e 0). set (den := 2 ^ Z.max (- e) 0).
  assert (Hden : 0 < den) by (apply Z.pow_pos_nonneg; lia).
  intros (Hk0 & Hk & Hke) (Hk0' & Hk' & Hke').
  assert (Hclose : Z.abs (k - k') <= 1) by nia.
  destruct (Z.eq_dec k k') as [| Hne]; [assumption | exfalso].
  assert (Hties : 2 * Z.abs (1000 * num - k * den) = den /\
                  2 * Z.abs (1000 * num - k' * den) = den) by nia.
  destruct Hties as [Ht Ht'].
  specialize (Hke Ht). specialize (Hke' Ht').
  assert (Hsucc : k' = Z.succ k \/ k = Z.succ k') by lia.
  destruct Hsucc as [-> | ->].
  - rewrite Z.even_succ, <- Z.negb_even, Hke in Hke'. discriminate.
  - rewrite Z.even_succ, <- Z.negb_even, Hke' in Hke. discriminate.
Qed.

Lemma rounded_to_3_decimals_unique x y y' :
  rounded_to_3_decimals x y -> rounded_to_3_decimals x y' -> y = y'.
Proof.
  destruct x as [s | s | | s m e]; cbn [rounded_to_3_decimals]; try congruence.
  intros (k & Hk & ->) (k' & Hk' & ->).
  rewrite (nearest_thousandth_unique m e k k' Hk Hk'). reflexivity.
Qed.

(** C7 (amended). On a token [H:MM:SS.cc] or [M:SS.cc] whose fields have at
    most 300 digits, two for the fraction, [time_to_seconds] returns hours x
    3600 + minutes x 60 + seconds + fractional / 100 as a float; and when
    the memory figure has 1 to 300 digits, the result stores this value
    rounded to three decimal places as [elapsed_time] and the memory figure
    divided by 1024, rounded to three decimal places, as [memory_usage]:
    each stored float is the one of the nearest whole number of
    thousandths. *)
Theorem elapsed_and_memory_stored
    L os tempdir t memory_limit command input_string out err returncode
    hours m s cc kilobytes :
  optional_field hours = true ->
  numeric_field m = true ->
  numeric_field s = true ->
  digits_field 2 cc = true ->
  numeric_field kilobytes = true ->
  popen_communicate os
    (nsjail_cmd tempdir t memory_limit ++ time_cmd ++ command)%list
    input_string t = Completed out err returncode ->
  split_ws (snd (split_telemetry err)) = [elapsed_token hours m s cc; kilobytes] ->
  let seconds :=
    elapsed_float (hours_value hours) (decimal_value m)
                  (decimal_value s) (decimal_value cc) in
  let r := run_command L os tempdir t memory_limit command input_string in
  time_to_seconds L (elapsed_token hours m s cc) = Ok (PyFloat seconds) /\
  (exists stored,
      elapsed_time r = Some (PyFloat stored) /\
      rounded_to_3_decimals seconds stored) /\
  (exists stored,
      memory_usage r = Some (PyFloat stored) /\
      rounded_to_3_decimals (megabytes_formula (decimal_value kilobytes)) stored).
Proof.
  intros Hh Hm Hs Hcc Hk Hp Htoks. cbv zeta.
  assert (Hf : numeric_field cc = true)
    by (apply (digits_field_numeric 2); [assumption | lia]).
  pose proof (time_to_seconds_token L hours m s cc Hh Hm Hs Hf) as Ht.
  split; [exact Ht|].
  assert (Hparse : parse_telemetry L (snd (split_telemetry err))
                   = Ok (elapsed_formula (hours_value hours) (decimal_value m)
                           (decimal_value s) (decimal_value cc),
                         decimal_value kilobytes)).
  { unfold parse_telemetry. rewrite Htoks. cbn [unpack2 exc_bind fst snd].
    rewrite Ht. cbn [exc_bind]. rewrite (int_numeric_field L _ Hk). reflexivity. }
  assert (Hdiv : true_div (decimal_value kilobytes) 1024
                 = Ok (megabytes_formula (decimal_value kilobytes))).
  { apply true_div_nonneg; [apply numeric_field_value; assumption | lia]. }
  rewrite (run_command_completed L os tempdir t memory_limit command input_string
             out err returncode _ _ _ Hp Hparse Hdiv).
  cbn [elapsed_time memory_usage]. split.
  - exists (round3_float
              (elapsed_float (hours_value hours) (decimal_value m)
                 (decimal_value s) (decimal_value cc))).
    split; [reflexivity | apply round3_float_rounded].
  - exists (round3_float (megabytes_formula (decimal_value kilobytes))).
    split; [reflexivity | apply round3_float_rounded].
Qed.

(** The witness: 1.14 seconds and one kilobyte. The sum 1 + 14/100 is the
    float 0x1.23d70a3d70a3ep+0 and is stored as 1.14, which is
    0x1.23d70a3d70a3dp+0; 1/1024 is 0x1.0000000000000p-10 and is stored as
    0.001, which is 0x1.0624dd2f1a9fcp-10. *)
Lemma elapsed_and_memory_stored_witness :
  optional_field None = true /\
  numeric_field "0" = true /\
  numeric_field "01" = true /\
  digits_field 2 "14" = true /\
  numeric_field "1" = true /\
  (time_to_seconds 4300 "0:01.14" = Ok (PyFloat (elapsed_float 0 0 1 14)) /\
   (exists stored,
       elapsed_time (run_command 4300 example_rounding_system example_tempdir
                       5 1000 example_command (Some "42"))
         = Some (PyFloat stored) /\
       rounded_to_3_decimals (elapsed_float 0 0 1 14) stored) /\
   (exists stored,
       memory_usage (run_command 4300 example_rounding_system example_tempdir
                       5 1000 example_command (Some "42"))
         = Some (PyFloat stored) /\
       rounded_to_3_decimals (megabytes_formula 1) stored)) /\
  elapsed_float 0 0 1 14 = S754_finite false 0x123d70a3d70a3e (-52) /\
  elapsed_time (run_command 4300 example_rounding_system example_tempdir
                  5 1000 example_command (Some "42"))
    = Some (PyFloat (S754_finite false 0x123d70a3d70a3d (-52))) /\
  decimal 1140 3 = S754_finite false 0x123d70a3d70a3d (-52) /\
  megabytes_formula 1 = S754_finite false 0x10000000000000 (-62) /\
  memory_usage (run_command 4300 example_rounding_system example_tempdir
                  5 1000 example_command (Some "42"))
    = Some (PyFloat (S754_finite false 0x10624dd2f1a9fc (-62))) /\
  decimal 1 3 = S754_finite false 0x10624dd2f1a9fc (-62).
Proof.
  repeat (split; [reflexivity|]).
  split.
  - apply (elapsed_and_memory_stored 4300 example_rounding_system example_tempdir
             5 1000 example_command (Some "42") "42" "0:01.14 1" 0
             None "0" "01" "14" "1"); reflexivity.
  - repeat split; vm_compute; reflexivity.
Defined.

(** C7 (as stated) fails on figures too large for a float. With the
    well-formed token "0:00.10" and a memory figure of 401 digits the
    division of line 147 raises and no memory usage is stored; with hours
    of 401 digits [time_to_seconds] raises instead of returning. *)
Lemma oversized_figures_counterexample :
  all_digits "0" = true /\ all_digits "00" = true /\
  digits_field 2 "10" = true /\
  all_digits ("1" ++ replicate 400 "0") = true /\
  split_ws (snd (split_telemetry ("0:00.10 1" ++ replicate 400 "0")))
    = [token_ms "0" "00" "10"; "1" ++ replicate 400 "0"] /\
  time_to_seconds 4300 (token_ms "0" "00" "10")
    = Ok (PyFloat (elapsed_float 0 0 0 10)) /\
  memory_usage (run_command 4300 example_huge_memory example_tempdir 5 1000
                  example_command (Some "42")) = None /\
  message (run_command 4300 example_huge_memory example_tempdir 5 1000
             example_command (Some "42"))
    = "integer division result too large for a float" /\
  digits_field 2 "00" = true /\
  time_to_seconds 4300 (token_hms ("1" ++ replicate 400 "0") "00" "00" "00")
    = Raise (OverflowError "int too large to convert to float").
Proof. repeat split; vm_compute; reflexivity. Qed.

(** C10. [time_to_seconds] divides the number the fractional token denotes
    by 100, however many digits the token has; with the one digit 5 the
    fraction is 5/100: "0:02.5" gives 2.05, not 2.5. *)
Theorem fraction_is_hundredths :
  (forall L hours m s f,
      optional_field hours = true -> numeric_field m = true ->
      numeric_field s = true -> numeric_field f = true ->
      time_to_seconds L (elapsed_token hours m s f)
      = Ok (PyFloat (float_add
                       (nearest_of_Z (hours_value hours * 3600
                                      + decimal_value m * 60 + decimal_value s))
                       (nearest_quotient false (decimal_value f) 100)))) /\
  (forall L, time_to_seconds L "0:02.5" = Ok (PyFloat (decimal 205 2))) /\
  decimal 205 2 <> decimal 25 1.
Proof.
  split; [| split].
  - intros L hours m s f Hh Hm Hs Hf.
    rewrite (time_to_seconds_token L hours m s f Hh Hm Hs Hf). reflexivity.
  - intros L. change "0:02.5" with (elapsed_token None "0" "02" "5").
    rewrite time_to_seconds_token by reflexivity.
    vm_compute. reflexivity.
  - vm_compute. discriminate.
Qed.

Lemma fraction_is_hundredths_witness :
  optional_field (Some "1") = true /\
  numeric_field "02" = true /\
  numeric_field "03" = true /\
  numeric_field "7" = true /\
  time_to_seconds 4300 "1:02:03.7"
  = Ok (PyFloat (float_add (nearest_of_Z 3723) (nearest_quotient false 7 100))).
Proof.
  repeat (split; [reflexivity|]).
  apply (proj1 fraction_is_hundredths 4300%N (Some "1") "02" "03" "7");
    reflexivity.
Defined.

(** * Failures of the telemetry conversion *)

Lemma telemetry_malformed_raises L err :
  telemetry_malformed L err = true ->
  exists e, parse_telemetry L (snd (split_telemetry err)) = Raise e.
Proof.
  unfold telemetry_malformed, parse_telemetry.
  destruct (split_ws (snd (split_telemetry err))) as [| a [| b [| c l]]];
    cbn [unpack2 exc_bind fst snd]; try (intros _; eexists; reflexivity).
  destruct (time_to_seconds L a) as [v | e]; [discriminate|].
  intros _. exists e. reflexivity.
Qed.

Lemma run_code_unfold L os request_data :
  run_code L os request_data
  = classify (run_command L os (mkdtemp os "codeforge_") 5 1000
                (get_command_for_language os
                   (write_source_code_to_file os (source_code request_data)
                      (mkdtemp os "codeforge_") (language request_data))
                   (language request_data))
                (input_data request_data)).
Proof. reflexivity. Qed.

Lemma classify_message_kept r :
  message r <> "" -> classify r = r.
Proof.
  intros Hm. unfold classify. destruct (message r); [congruence | reflexivity].
Qed.

(** The supervisor's result when the telemetry does not convert. *)
Lemma run_command_parse_failure
    L os tempdir t memory_limit command input_string out err returncode e :
  popen_communicate os
    (nsjail_cmd tempdir t memory_limit ++ time_cmd ++ command)%list
    input_string t = Completed out err returncode ->
  parse_telemetry L (snd (split_telemetry err)) = Raise e ->
  run_command L os tempdir t memory_limit command input_string
  = {| stdout := ""; stderr := ""; return_code := None;
       elapsed_time := None; memory_usage := None;
       timeout := is_alive_after_join os (watchdog_window t);
       test_passed := false;
       message := str_of_exception e |}.
Proof.
  intros Hp Hparse.
  destruct (parse_telemetry_raise L _ e Hparse) as [Hnt _].
  unfold run_command.
  rewrite (target_acquire_raise L os tempdir t memory_limit command input_string e).
  - rewrite Hnt.
    destruct (is_alive_after_join os (watchdog_window t)); reflexivity.
  - rewrite (acquire_completed L os tempdir t memory_limit command input_string
               out err returncode Hp), Hparse. reflexivity.
Qed.

(** C2 (amended). When the telemetry line is missing or malformed, no
    exception reaches the caller of [run_code]: the result returned carries
    the text of the exception raised by the conversion as its message, a
    non-empty text that is not "Server error", and the classifier leaves it
    in place. *)
Theorem malformed_telemetry_keeps_exception_text
    L os request_data out err returncode :
  popen_communicate os (run_code_argv os request_data)
    (input_data request_data) 5 = Completed out err returncode ->
  telemetry_malformed L err = true ->
  exists e,
    parse_telemetry L (snd (split_telemetry err)) = Raise e /\
    message (run_code L os request_data) = str_of_exception e /\
    parse_failure_text L (str_of_exception e) /\
    message (run_code L os request_data) <> "Server error".
Proof.
  intros Hp Hmal.
  destruct (telemetry_malformed_raises L err Hmal) as [e Hparse].
  destruct (parse_telemetry_raise L _ e Hparse) as [_ Htext].
  destruct (parse_failure_text_diagnostic L _ Htext) as [Hne Hns].
  exists e. split; [exact Hparse|].
  assert (Hmsg : message (run_code L os request_data) = str_of_exception e).
  { rewrite run_code_unfold.
    rewrite (run_command_parse_failure L os _ 5 1000 _ _ out err returncode e Hp Hparse).
    rewrite classify_message_kept by exact Hne. reflexivity. }
  rewrite Hmsg. repeat split; assumption.
Qed.

Lemma malformed_telemetry_keeps_exception_text_witness :
  popen_communicate (example_no_telemetry 0)
    (run_code_argv (example_no_telemetry 0) example_request)
    (input_data example_request) 5 = Completed "42" "" 0 /\
  telemetry_malformed 4300 "" = true /\
  exists e,
    parse_telemetry 4300 (snd (split_telemetry "")) = Raise e /\
    message (run_code 4300 (example_no_telemetry 0) example_request)
      = str_of_exception e /\
    parse_failure_text 4300 (str_of_exception e) /\
    message (run_code 4300 (example_no_telemetry 0) example_request)
      <> "Server error".
Proof.
  split; [reflexivity|]. split; [reflexivity|].
  apply (malformed_telemetry_keeps_exception_text 4300 (example_no_telemetry 0)
           example_request "42" "" 0); reflexivity.
Defined.

(** C2 (as stated) fails: with an empty error stream the message is the
    text of the [ValueError] of line 136. *)
Lemma malformed_telemetry_counterexample :
  telemetry_malformed 4300 "" = true /\
  message (run_code 4300 (example_no_telemetry 0) example_request)
    = "not enough values to unpack (expected 2, got 0)" /\
  message (run_code 4300 (example_no_telemetry 0) example_request)
    <> "Server error".
Proof. repeat split; vm_compute; congruence. Qed.

(** * The sandbox's kill code *)

(** When the telemetry converts, return code 137 sets the timed-out flag. *)
Lemma kill_code_with_telemetry
    L os tempdir t memory_limit command input_string out err elapsed memory megabytes :
  popen_communicate os
    (nsjail_cmd tempdir t memory_limit ++ time_cmd ++ command)%list
    input_string t = Completed out err 137 ->
  parse_telemetry L (snd (split_telemetry err)) = Ok (elapsed, memory) ->
  true_div memory 1024 = Ok megabytes ->
  timeout (run_command L os tempdir t memory_limit command input_string) = true.
Proof.
  intros Hp Hparse Hdiv.
  rewrite (run_command_completed L os tempdir t memory_limit command input_string
             out err 137 elapsed memory megabytes Hp Hparse Hdiv).
  cbn [timeout]. apply orb_true_r.
Qed.

(** C8 (as the code behaves). With return code 137 and an error stream
    whose last line does not convert, the test of line 140 is not reached:
    unless the outer watchdog fired, the timed-out flag stays unset and the
    message is the text of the exception. *)
Theorem kill_code_without_telemetry
    L os tempdir t memory_limit command input_string out err e :
  popen_communicate os
    (nsjail_cmd tempdir t memory_limit ++ time_cmd ++ command)%list
    input_string t = Completed out err 137 ->
  parse_telemetry L (snd (split_telemetry err)) = Raise e ->
  is_alive_after_join os (watchdog_window t) = false ->
  timeout (run_command L os tempdir t memory_limit command input_string) = false /\
  message (run_command L os tempdir t memory_limit command input_string)
    = str_of_exception e.
Proof.
  intros Hp Hparse Halive.
  rewrite (run_command_parse_failure L os tempdir t memory_limit command
             input_string out err 137 e Hp Hparse).
  cbn [timeout message]. split; [exact Halive | reflexivity].
Qed.

Lemma kill_code_without_telemetry_witness :
  popen_communicate (example_no_telemetry 137)
    (nsjail_cmd example_tempdir 5 1000 ++ time_cmd ++ example_command)%list
    (Some "42") 5 = Completed "42" "" 137 /\
  parse_telemetry 4300 (snd (split_telemetry ""))
    = Raise (ValueError "not enough values to unpack (expected 2, got 0)") /\
  is_alive_after_join (example_no_telemetry 137) (watchdog_window 5) = false /\
  timeout (run_command 4300 (example_no_telemetry 137) example_tempdir 5 1000
             example_command (Some "42")) = false /\
  message (run_command 4300 (example_no_telemetry 137) example_tempdir 5 1000
             example_command (Some "42"))
    = "not enough values to unpack (expected 2, got 0)".
Proof.
  repeat (split; [reflexivity|]).
  apply (kill_code_without_telemetry 4300 (example_no_telemetry 137)
           example_tempdir 5 1000 example_command (Some "42") "42" ""
           (ValueError "not enough values to unpack (expected 2, got 0)"));
    reflexivity.
Defined.

(** * Results of a worker that raised *)

(** The worker raises either before its first assignment or in the
    division of line 147. *)
Lemma worker_raise_cases
    L os tempdir t memory_limit command input_string r e :
  snd (target_body L os tempdir t memory_limit command input_string r) = Raise e
  <-> acquire L os tempdir t memory_limit command input_string = Raise e
      \/ exists out cleaned returncode elapsed memory,
           acquire L os tempdir t memory_limit command input_string
             = Ok (out, cleaned, returncode, elapsed, memory) /\
           true_div memory 1024 = Raise e.
Proof.
  rewrite target_body_stages.
  destruct (acquire L os tempdir t memory_limit command input_string)
    as [[[[[out cleaned] returncode] elapsed] memory] | e'].
  - destruct (true_div memory 1024) as [megabytes | e'] eqn:Hdiv.
    + rewrite (populate_ok out cleaned returncode elapsed memory megabytes r Hdiv).
      cbn [snd]. split; [discriminate|].
      intros [H | (o & c & rc & el & mem & [= _ _ _ _ <-] & H)]; congruence.
    + rewrite (populate_raise out cleaned returncode elapsed memory e' r Hdiv).
      cbn [snd]. split.
      * intros [= ->]. right. exists out, cleaned, returncode, elapsed, memory.
        split; [reflexivity | exact Hdiv].
      * intros [H | (o & c & rc & el & mem & [= _ _ _ _ <-] & H)]; congruence.
  - cbn [snd]. split.
    + intros [= ->]. left. reflexivity.
    + intros [[= ->] | (o & c & rc & el & mem & H & _)]; [reflexivity | discriminate].
Qed.

(** C9 (amended). When the worker raises before the first assignment of
    the result-population block ([Popen] or [communicate] raising, a
    time-out included, or the telemetry failing to convert), the result
    keeps the empty output texts and has no return code, elapsed time or
    memory usage. *)
Theorem raise_before_population_keeps_defaults
    L os tempdir t memory_limit command input_string e :
  acquire L os tempdir t memory_limit command input_string = Raise e ->
  let r := run_command L os tempdir t memory_limit command input_string in
  stdout r = "" /\ stderr r = "" /\ return_code r = None /\
  elapsed_time r = None /\ memory_usage r = None.
Proof.
  intros Ha. cbv zeta.
  destruct (run_command_fields L os tempdir t memory_limit command input_string)
    as (H1 & H2 & H3 & H4 & H5 & _).
  rewrite H1, H2, H3, H4, H5.
  rewrite (target_acquire_raise L os tempdir t memory_limit command input_string
             e _ Ha).
  destruct (is_TimeoutExpired e); repeat split; reflexivity.
Qed.

Lemma raise_before_population_keeps_defaults_witness :
  acquire 4300 example_timed_out example_tempdir 5 1000 example_command (Some "42")
    = Raise (TimeoutExpired "Command timed out after 5 seconds") /\
  stdout (run_command 4300 example_timed_out example_tempdir 5 1000
            example_command (Some "42")) = "" /\
  stderr (run_command 4300 example_timed_out example_tempdir 5 1000
            example_command (Some "42")) = "" /\
  return_code (run_command 4300 example_timed_out example_tempdir 5 1000
                 example_command (Some "42")) = None /\
  elapsed_time (run_command 4300 example_timed_out example_tempdir 5 1000
                  example_command (Some "42")) = None /\
  memory_usage (run_command 4300 example_timed_out example_tempdir 5 1000
                  example_command (Some "42")) = None.
Proof.
  split; [reflexivity|].
  apply (raise_before_population_keeps_defaults 4300 example_timed_out
           example_tempdir 5 1000 example_command (Some "42")
           (TimeoutExpired "Command timed out after 5 seconds")).
  reflexivity.
Defined.

(** C9 (as stated) fails: a memory figure too large for a float makes line
    147 raise after the output texts, the return code and the elapsed time
    have been assigned. *)
Lemma partial_population_counterexample :
  snd (target_body 4300 example_huge_memory example_tempdir 5 1000
         example_command (Some "42") (new_RunResponse ""))
    = Raise (OverflowError "integer division result too large for a float") /\
  stdout (run_command 4300 example_huge_memory example_tempdir 5 1000
            example_command (Some "42")) = "42" /\
  return_code (run_command 4300 example_huge_memory example_tempdir 5 1000
                 example_command (Some "42")) = Some 0 /\
  elapsed_time (run_command 4300 example_huge_memory example_tempdir 5 1000
                  example_command (Some "42")) = Some (PyFloat (decimal 1 1)) /\
  memory_usage (run_command 4300 example_huge_memory example_tempdir 5 1000
                  example_command (Some "42")) = None.
Proof. repeat split; vm_compute; reflexivity. Qed.

(** * The two time bounds of the supervisor *)

Lemma to_int_not_nil z :
  Z.to_int z <> Decimal.Pos Decimal.Nil /\ Z.to_int z <> Decimal.Neg Decimal.Nil.
Proof.
  assert (Hp : forall p, Pos.to_uint p <> Decimal.Nil).
  { intros p H. pose proof (DecimalPos.Unsigned.of_to p) as Hof.
    rewrite H in Hof. discriminate. }
  destruct z as [| p | p]; simpl; split; try discriminate;
    intros [= H]; exact (Hp p H).
Qed.

Lemma int_of_string_str_of_int z :
  option_map Z.of_int (NilZero.int_of_string (str_of_int z)) = Some z.
Proof.
  unfold str_of_int. destruct (to_int_not_nil z) as [H1 H2].
  rewrite NilZero.isi by assumption. simpl. rewrite DecimalZ.of_to. reflexivity.
Qed.

(** The supervisor consults the operating system at these two calls only:
    the launch with its [communicate] bound and the bounded join. *)
Lemma run_command_bounds L os os' tempdir t memory_limit command input_string :
  popen_communicate os
    (nsjail_cmd tempdir t memory_limit ++ time_cmd ++ command)%list input_string t
  = popen_communicate os'
      (nsjail_cmd tempdir t memory_limit ++ time_cmd ++ command)%list input_string t ->
  is_alive_after_join os (watchdog_window t)
  = is_alive_after_join os' (watchdog_window t) ->
  run_command L os tempdir t memory_limit command input_string
  = run_command L os' tempdir t memory_limit command input_string.
Proof.
  intros Hp Ha. unfold run_command, target. rewrite Ha.
  rewrite !target_body_stages. unfold acquire, launch. rewrite Hp. reflexivity.
Qed.

(** C3 (amended). The wall-clock watchdog window of the supervisor equals
    the time limit handed to the sandbox wrapper: both are the parameter
    [timeout], and a run depends on the system through the launch bounded
    by it and the join bounded by it. *)
Theorem watchdog_window_equals_sandbox_limit :
  forall L tempdir t memory_limit command input_string,
    sandbox_time_limit
      (nsjail_cmd tempdir t memory_limit ++ time_cmd ++ command)%list
      = Some (watchdog_window t) /\
    forall os os',
      popen_communicate os
        (nsjail_cmd tempdir t memory_limit ++ time_cmd ++ command)%list
        input_string (watchdog_window t)
      = popen_communicate os'
          (nsjail_cmd tempdir t memory_limit ++ time_cmd ++ command)%list
          input_string (watchdog_window t) ->
      is_alive_after_join os (watchdog_window t)
      = is_alive_after_join os' (watchdog_window t) ->
      run_command L os tempdir t memory_limit command input_string
      = run_command L os' tempdir t memory_limit command input_string.
Proof.
  intros L tempdir t memory_limit command input_string. split.
  - unfold nsjail_cmd, watchdog_window.
    cbn [sandbox_time_limit strip_prefix append Ascii.eqb Bool.eqb app].
    apply int_of_string_str_of_int.
  - intros os os'. apply run_command_bounds.
Qed.

Lemma watchdog_window_equals_sandbox_limit_witness :
  sandbox_time_limit
    (nsjail_cmd example_tempdir 5 1000 ++ time_cmd ++ example_command)%list
    = Some (watchdog_window 5) /\
  watchdog_window 5 = 5.
Proof.
  split; [| reflexivity].
  apply (proj1 (watchdog_window_equals_sandbox_limit
                  4300%N example_tempdir 5 1000 example_command (Some "42"))).
Defined.

(** C3 (as stated) fails: with the defaults of [run_command] the window is
    5 seconds and so is the sandbox's limit. *)
Lemma watchdog_window_counterexample :
  exists limit,
    sandbox_time_limit
      (nsjail_cmd example_tempdir 5 1000 ++ time_cmd ++ example_command)%list
      = Some limit /\
    ~ limit < watchdog_window 5.
Proof. exists 5. split; [reflexivity | vm_compute; discriminate]. Qed.

(** * Further properties of [time_to_seconds] *)

Lemma split_on_nonempty sep s : split_on sep s <> [].
Proof.
  destruct s as [| c s]; simpl; [discriminate|].
  destruct (Ascii.eqb c sep); [discriminate|].
  destruct (split_on sep s); discriminate.
Qed.

Lemma split_on_present sep s :
  contains sep s = true -> (2 <= List.length (split_on sep s))%nat.
Proof.
  induction s as [| c s IH]; simpl; [discriminate|].
  destruct (Ascii.eqb c sep) eqn:Hc; cbn [orb].
  - intros _. pose proof (split_on_nonempty sep s).
    destruct (split_on sep s); [congruence | simpl; lia].
  - intros Hs. specialize (IH Hs).
    destruct (split_on sep s); simpl in *; lia.
Qed.

(** X1. Without a fractional part the elapsed time is an [int]: on [H:MM:SS]
    or [M:SS], [time_to_seconds] returns the integer hours x 3600 +
    minutes x 60 + seconds, and [round(., 3)] stores it unchanged. *)
Theorem whole_seconds_stay_int
    L os tempdir t memory_limit command input_string out err returncode
    hours m s kilobytes :
  optional_field hours = true ->
  numeric_field m = true ->
  numeric_field s = true ->
  numeric_field kilobytes = true ->
  popen_communicate os
    (nsjail_cmd tempdir t memory_limit ++ time_cmd ++ command)%list
    input_string t = Completed out err returncode ->
  split_ws (snd (split_telemetry err)) = [whole_token hours m s; kilobytes] ->
  time_to_seconds L (whole_token hours m s)
    = Ok (PyInt (hours_value hours * 3600 + decimal_value m * 60
                 + decimal_value s)) /\
  elapsed_time (run_command L os tempdir t memory_limit command input_string)
    = Some (PyInt (hours_value hours * 3600 + decimal_value m * 60
                   + decimal_value s)).
Proof.
  intros Hh Hm Hs Hk Hp Htoks.
  pose proof (numeric_field_digits _ Hm) as Dm.
  pose proof (numeric_field_digits _ Hs) as Ds.
  assert (Ht : time_to_seconds L (whole_token hours m s)
               = Ok (PyInt (hours_value hours * 3600 + decimal_value m * 60
                            + decimal_value s))).
  { unfold time_to_seconds. destruct hours as [h |];
      cbn [optional_field whole_token hours_value] in *.
    - pose proof (numeric_field_digits _ Hh) as Dh.
      change (h ++ ":" ++ m ++ ":" ++ s) with (h ++ String ":" (m ++ String ":" s)).
      rewrite !split_on_app by (apply all_digits_no_colon; assumption).
      rewrite split_on_absent by (apply all_digits_no_colon; assumption).
      cbn [List.length Nat.eqb getitem nth_error exc_bind tl fst snd].
      rewrite (int_numeric_field L h Hh). cbn [exc_bind tl fst snd getitem nth_error].
      rewrite (int_numeric_field L m Hm). cbn [exc_bind getitem nth_error].
      rewrite (all_digits_no_dot s Ds), (int_numeric_field L s Hs).
      reflexivity.
    - change (m ++ ":" ++ s) with (m ++ String ":" s).
      rewrite !split_on_app by (apply all_digits_no_colon; assumption).
      rewrite split_on_absent by (apply all_digits_no_colon; assumption).
      cbn [List.length Nat.eqb getitem nth_error exc_bind tl fst snd].
      rewrite (int_numeric_field L m Hm). cbn [exc_bind getitem nth_error].
      rewrite (all_digits_no_dot s Ds), (int_numeric_field L s Hs).
      reflexivity. }
  split; [exact Ht|].
  assert (Hparse : parse_telemetry L (snd (split_telemetry err))
                   = Ok (PyInt (hours_value hours * 3600 + decimal_value m * 60
                                + decimal_value s), decimal_value kilobytes)).
  { unfold parse_telemetry. rewrite Htoks. cbn [unpack2 exc_bind fst snd].
    rewrite Ht. cbn [exc_bind]. rewrite (int_numeric_field L _ Hk). reflexivity. }
  assert (Hdiv : true_div (decimal_value kilobytes) 1024
                 = Ok (megabytes_formula (decimal_value kilobytes))).
  { apply true_div_nonneg; [apply numeric_field_value; assumption | lia]. }
  rewrite (run_command_completed L os tempdir t memory_limit command input_string
             out err returncode _ _ _ Hp Hparse Hdiv).
  reflexivity.
Qed.

Lemma whole_seconds_stay_int_witness :
  optional_field (Some "1") = true /\
  numeric_field "02" = true /\
  numeric_field "03" = true /\
  numeric_field "2048" = true /\
  time_to_seconds 4300 "1:02:03" = Ok (PyInt 3723) /\
  elapsed_time (run_command 4300
                  (example_system (Completed "42" "1:02:03 2048" 0) false)
                  example_tempdir 5 1000 example_command (Some "42"))
    = Some (PyInt 3723).
Proof.
  repeat (split; [reflexivity|]).
  apply (whole_seconds_stay_int 4300
           (example_system (Completed "42" "1:02:03 2048" 0) false)
           example_tempdir 5 1000 example_command (Some "42") "42"
           "1:02:03 2048" 0 (Some "1") "02" "03" "2048"); reflexivity.
Defined.

(** X2. A time token without colon cannot be converted: once [int] has
    read it as the minutes, [parts[1]] raises [IndexError]; a token of
    digits alone therefore fails with "list index out of range". *)
Theorem token_without_colon_fails L time_str :
  contains ":" time_str = false ->
  time_to_seconds L time_str
    = (_ <- int L time_str ;; Raise (IndexError "list index out of range")) /\
  (numeric_field time_str = true ->
   time_to_seconds L time_str = Raise (IndexError "list index out of range")).
Proof.
  intros Hc.
  assert (H : time_to_seconds L time_str
              = (_ <- int L time_str ;;
                 Raise (IndexError "list index out of range"))).
  { unfold time_to_seconds. rewrite (split_on_absent _ _ Hc).
    cbn [List.length Nat.eqb getitem nth_error exc_bind fst snd].
    destruct (int L time_str); reflexivity. }
  split; [exact H|].
  intros Hn. rewrite H, (int_numeric_field L _ Hn). reflexivity.
Qed.

Lemma token_without_colon_fails_witness :
  contains ":" "75" = false /\
  time_to_seconds 4300 "75" = Raise (IndexError "list index out of range").
Proof.
  split; [reflexivity|].
  apply (proj2 (token_without_colon_fails 4300%N "75" eq_refl)). reflexivity.
Defined.

(** X3. With four or more colon-separated fields the hours branch is not
    taken and only the first two fields are read, as minutes and seconds:
    everything after the second field is ignored. *)
Theorem extra_fields_ignored L a b rest :
  numeric_field a = true -> numeric_field b = true ->
  contains ":" rest = true ->
  time_to_seconds L (a ++ ":" ++ b ++ ":" ++ rest)
    = Ok (PyInt (decimal_value a * 60 + decimal_value b)).
Proof.
  intros Ha Hb Hrest.
  pose proof (numeric_field_digits _ Ha) as Da.
  pose proof (numeric_field_digits _ Hb) as Db.
  unfold time_to_seconds.
  change (a ++ ":" ++ b ++ ":" ++ rest) with (a ++ String ":" (b ++ String ":" rest)).
  rewrite !split_on_app by (apply all_digits_no_colon; assumption).
  pose proof (split_on_present ":" rest Hrest) as Hlen.
  destruct (split_on ":" rest) as [| x [| y l]]; cbn [List.length] in Hlen; try lia.
  cbn [List.length Nat.eqb getitem nth_error exc_bind fst snd].
  rewrite (int_numeric_field L a Ha). cbn [exc_bind].
  rewrite (all_digits_no_dot b Db), (int_numeric_field L b Hb).
  reflexivity.
Qed.

Lemma extra_fields_ignored_witness :
  numeric_field "1" = true /\ numeric_field "2" = true /\
  contains ":" "3:4" = true /\
  time_to_seconds 4300 "1:2:3:4" = Ok (PyInt 62).
Proof.
  repeat (split; [reflexivity|]).
  apply (extra_fields_ignored 4300%N "1" "2" "3:4"); reflexivity.
Defined.

(** X4. A seconds field with two or more dots raises the [ValueError] of
    the unpacking of line 178, whatever stands between the dots. *)
Theorem second_dot_fails L m s rest :
  numeric_field m = true ->
  contains ":" s = false -> contains "." s = false ->
  contains ":" rest = false -> contains "." rest = true ->
  time_to_seconds L (m ++ ":" ++ s ++ "." ++ rest)
    = Raise (ValueError "too many values to unpack (expected 2)").
Proof.
  intros Hm Hsc Hsd Hrc Hrd.
  pose proof (numeric_field_digits _ Hm) as Dm.
  unfold time_to_seconds.
  change (m ++ ":" ++ s ++ "." ++ rest) with (m ++ String ":" (s ++ "." ++ rest)).
  rewrite split_on_app by (apply all_digits_no_colon; assumption).
  rewrite split_on_absent
    by (rewrite !contains_app, Hsc, Hrc; reflexivity).
  cbn [List.length Nat.eqb getitem nth_error exc_bind fst snd].
  rewrite (int_numeric_field L m Hm). cbn [exc_bind].
  replace (contains "." (s ++ "." ++ rest)) with true
    by (rewrite !contains_app; simpl; rewrite orb_true_r; reflexivity).
  change (s ++ "." ++ rest) with (s ++ String "." rest).
  rewrite (split_on_app "." s rest Hsd).
  pose proof (split_on_present "." rest Hrd) as Hlen.
  destruct (split_on "." rest) as [| x [| y l]]; cbn [List.length] in Hlen; try lia.
  reflexivity.
Qed.

Lemma second_dot_fails_witness :
  numeric_field "0" = true /\
  contains ":" "02" = false /\ contains "." "02" = false /\
  contains ":" "5.1" = false /\ contains "." "5.1" = true /\
  time_to_seconds 4300 "0:02.5.1"
    = Raise (ValueError "too many values to unpack (expected 2)").
Proof.
  repeat (split; [reflexivity|]).
  apply (second_dot_fails 4300%N "0" "02" "5.1"); reflexivity.
Defined.

(** * The supervisor's result, outcome by outcome *)

Section Outcomes.

Variable L : N.
Variable os : system.
Variable tempdir : string.
Variable t : Z.
Variable memory_limit : Z.
Variable command : list string.
Variable input_string : option string.

(** Every path of [run_command]. *)
Lemma run_command_outcome :
  run_command L os tempdir t memory_limit command input_string
  = let alive := is_alive_after_join os (watchdog_window t) in
    match popen_communicate os
            (nsjail_cmd tempdir t memory_limit ++ time_cmd ++ command)%list
            input_string t with
    | SpawnFailed reason => bare_result alive reason
    | CommunicateFailed e =>
        if is_TimeoutExpired e then bare_result true ""
        else bare_result alive (str_of_exception e)
    | Completed out err returncode =>
        match parse_telemetry L (snd (split_telemetry err)) with
        | Raise e => bare_result alive (str_of_exception e)
        | Ok (elapsed, memory) =>
            match true_div memory 1024 with
            | Ok megabytes =>
                {| stdout := out;
                   stderr := fst (split_telemetry err);
                   return_code := Some returncode;
                   elapsed_time := Some (round3 elapsed);
                   memory_usage := Some (PyFloat (round3_float megabytes));
                   timeout := alive || (returncode =? 137);
                   test_passed := false;
                   message := "" |}
            | Raise e =>
                {| stdout := out;
                   stderr := fst (split_telemetry err);
                   return_code := Some returncode;
                   elapsed_time := Some (round3 elapsed);
                   memory_usage := None;
                   timeout := alive || (returncode =? 137);
                   test_passed := false;
                   message := str_of_exception e |}
            end
        end
    end.
Proof.
  cbv zeta.
  destruct (popen_communicate os _ input_string t) as [reason | e | out err rc] eqn:Hp.
  - unfold run_command.
    rewrite (target_acquire_raise L os tempdir t memory_limit command input_string
               (OtherException reason))
      by (unfold acquire, launch; rewrite Hp; reflexivity).
    cbn [is_TimeoutExpired str_of_exception].
    destruct (is_alive_after_join os (watchdog_window t)); reflexivity.
  - unfold run_command.
    rewrite (target_acquire_raise L os tempdir t memory_limit command input_string e)
      by (unfold acquire, launch; rewrite Hp; reflexivity).
    destruct (is_TimeoutExpired e),
      (is_alive_after_join os (watchdog_window t)); reflexivity.
  - destruct (parse_telemetry L (snd (split_telemetry err)))
      as [[elapsed memory] | e] eqn:Hparse.
    + destruct (true_div memory 1024) as [megabytes | e] eqn:Hdiv.
      * apply (run_command_completed L os tempdir t memory_limit command
                 input_string out err rc elapsed memory megabytes Hp Hparse Hdiv).
      * destruct (true_div_raise L _ _ e Hdiv) as [Hnt _].
        unfold run_command, target.
        rewrite target_body_stages,
          (acquire_completed L os tempdir t memory_limit command input_string
             out err rc Hp), Hparse.
        cbn [exc_bind fst snd].
        rewrite (populate_raise out _ rc elapsed memory e _ Hdiv), Hnt.
        cbn [timeout test_passed message memory_usage new_RunResponse set_message].
        destruct (is_alive_after_join os (watchdog_window t)), (rc =? 137);
          reflexivity.
    + apply (run_command_parse_failure L os tempdir t memory_limit command
               input_string out err rc e Hp Hparse).
Qed.

End Outcomes.

Lemma classify_bare timed_out msg :
  classify (bare_result timed_out msg)
  = bare_result timed_out
      (if truthy msg then msg
       else if timed_out then "Time limit exceeded" else "Runtime error").
Proof.
  unfold classify, bare_result. cbn [message timeout return_code].
  destruct (truthy msg) eqn:Hm; [reflexivity|].
  apply truthy_empty in Hm. subst msg.
  destruct timed_out; reflexivity.
Qed.

(** X5. The timed-out flag of the supervisor's result is set exactly when
    the outer watchdog fired, or [communicate] raised [TimeoutExpired], or
    the process ended with return code 137 and its telemetry converted. *)
Theorem timeout_flag_characterised
    L os tempdir t memory_limit command input_string :
  timeout (run_command L os tempdir t memory_limit command input_string)
  = (is_alive_after_join os (watchdog_window t)
     || match popen_communicate os
                (nsjail_cmd tempdir t memory_limit ++ time_cmd ++ command)%list
                input_string t with
        | SpawnFailed _ => false
        | CommunicateFailed e => is_TimeoutExpired e
        | Completed _ err returncode =>
            match parse_telemetry L (snd (split_telemetry err)) with
            | Ok _ => returncode =? 137
            | Raise _ => false
            end
        end)%bool.
Proof.
  rewrite run_command_outcome. cbv zeta.
  destruct (popen_communicate os _ input_string t) as [reason | e | out err rc].
  - cbn [timeout bare_result]. rewrite orb_false_r. reflexivity.
  - destruct (is_TimeoutExpired e); cbn [timeout bare_result].
    + rewrite orb_true_r. reflexivity.
    + rewrite orb_false_r. reflexivity.
  - destruct (parse_telemetry L (snd (split_telemetry err))) as [[elapsed memory] | e].
    + destruct (true_div memory 1024); reflexivity.
    + cbn [timeout bare_result]. rewrite orb_false_r. reflexivity.
Qed.

(** X6. When the process ended and its telemetry converts, [run_code]
    returns the process's output, the error stream without its telemetry,
    the return code and the two measurements, labelled "Time limit exceeded"
    if the watchdog fired or the return code is 137, else "Success" for
    return code 0 and "Runtime error" for any other. *)
Theorem completed_run_classified
    L os request_data out err returncode elapsed memory megabytes :
  popen_communicate os (run_code_argv os request_data)
    (input_data request_data) 5 = Completed out err returncode ->
  parse_telemetry L (snd (split_telemetry err)) = Ok (elapsed, memory) ->
  true_div memory 1024 = Ok megabytes ->
  run_code L os request_data
  = {| stdout := out;
       stderr := fst (split_telemetry err);
       return_code := Some returncode;
       elapsed_time := Some (round3 elapsed);
       memory_usage := Some (PyFloat (round3_float megabytes));
       timeout := is_alive_after_join os (watchdog_window 5) || (returncode =? 137);
       test_passed := false;
       message := label (is_alive_after_join os (watchdog_window 5)
                         || (returncode =? 137)) returncode |}.
Proof.
  intros Hp Hparse Hdiv. rewrite run_code_unfold.
  rewrite (run_command_completed L os _ 5 1000 _ _ out err returncode
             elapsed memory megabytes Hp Hparse Hdiv).
  unfold classify, label. cbn [message truthy timeout return_code].
  destruct (is_alive_after_join os (watchdog_window 5) || (returncode =? 137));
    [reflexivity|].
  destruct (returncode =? 0); reflexivity.
Qed.

Lemma completed_run_classified_witness :
  popen_communicate (example_system (Completed "42" stderr_three_lines 3) false)
    (run_code_argv (example_system (Completed "42" stderr_three_lines 3) false)
       example_request)
    (input_data example_request) 5 = Completed "42" stderr_three_lines 3 /\
  parse_telemetry 4300 (snd (split_telemetry stderr_three_lines))
    = Ok (elapsed_formula 0 0 2 50, 51200) /\
  true_div 51200 1024 = Ok (megabytes_formula 51200) /\
  run_code 4300 (example_system (Completed "42" stderr_three_lines 3) false)
    example_request
  = {| stdout := "42";
       stderr := "line1" ++ nl ++ "line2";
       return_code := Some 3;
       elapsed_time := Some (round3 (elapsed_formula 0 0 2 50));
       memory_usage := Some (PyFloat (round3_float (megabytes_formula 51200)));
       timeout := false;
       test_passed := false;
       message := "Runtime error" |}.
Proof.
  repeat (split; [reflexivity|]).
  apply (completed_run_classified 4300
           (example_system (Completed "42" stderr_three_lines 3) false)
           example_request "42" stderr_three_lines 3
           (elapsed_formula 0 0 2 50) 51200 (megabytes_formula 51200));
    reflexivity.
Defined.

(** X7. When [communicate] raises [TimeoutExpired], [run_code] returns a
    result without output, return code or measurements, timed out and
    labelled "Time limit exceeded", whether or not the outer watchdog fired
    as well. *)
Theorem communicate_timeout_result L os request_data text :
  popen_communicate os (run_code_argv os request_data)
    (input_data request_data) 5 = CommunicateFailed (TimeoutExpired text) ->
  run_code L os request_data = bare_result true "Time limit exceeded".
Proof.
  intros Hp. rewrite run_code_unfold, run_command_outcome. cbv zeta.
  unfold run_code_argv in Hp. cbv zeta in Hp. rewrite Hp.
  cbn [is_TimeoutExpired]. apply classify_bare.
Qed.

Lemma communicate_timeout_result_witness :
  popen_communicate example_timed_out
    (run_code_argv example_timed_out example_request)
    (input_data example_request) 5
    = CommunicateFailed (TimeoutExpired "Command timed out after 5 seconds") /\
  run_code 4300 example_timed_out example_request
    = bare_result true "Time limit exceeded".
Proof.
  split; [reflexivity|].
  apply (communicate_timeout_result 4300 example_timed_out example_request
           "Command timed out after 5 seconds").
  reflexivity.
Defined.

(** X8. When [Popen] raises, [run_code] returns a result without output or
    return code whose message is the text of the exception, unclassified:
    it stays that text even when the watchdog has set the timed-out flag.
    Only an empty text is replaced, by "Time limit exceeded" if the watchdog
    fired and by "Runtime error" otherwise. *)
Theorem spawn_failure_result L os request_data reason :
  popen_communicate os (run_code_argv os request_data)
    (input_data request_data) 5 = SpawnFailed reason ->
  run_code L os request_data
  = bare_result (is_alive_after_join os (watchdog_window 5))
      (if truthy reason then reason
       else if is_alive_after_join os (watchdog_window 5)
            then "Time limit exceeded" else "Runtime error").
Proof.
  intros Hp. rewrite run_code_unfold, run_command_outcome. cbv zeta.
  unfold run_code_argv in Hp. cbv zeta in Hp. rewrite Hp.
  apply classify_bare.
Qed.

Lemma spawn_failure_result_witness :
  popen_communicate
    (example_system (SpawnFailed "[Errno 2] No such file or directory: 'nsjail'") true)
    (run_code_argv
       (example_system (SpawnFailed "[Errno 2] No such file or directory: 'nsjail'") true)
       example_request)
    (input_data example_request) 5
    = SpawnFailed "[Errno 2] No such file or directory: 'nsjail'" /\
  run_code 4300
    (example_system (SpawnFailed "[Errno 2] No such file or directory: 'nsjail'") true)
    example_request
  = bare_result true "[Errno 2] No such file or directory: 'nsjail'".
Proof.
  split; [reflexivity|].
  apply (spawn_failure_result 4300
           (example_system
              (SpawnFailed "[Errno 2] No such file or directory: 'nsjail'") true)
           example_request "[Errno 2] No such file or directory: 'nsjail'").
  reflexivity.
Defined.

(** * Invariants of the result of [run_code] *)

Lemma classify_message_nonempty r : message (classify r) <> "".
Proof.
  unfold classify. destruct (message r) as [| c s] eqn:Hm; cbn [truthy].
  - destruct (timeout r); [discriminate|].
    destruct (return_code r) as [[| p | p] |]; discriminate.
  - rewrite Hm. discriminate.
Qed.

Lemma classify_keeps_fields r :
  classify r = set_message (message (classify r)) r.
Proof.
  unfold classify. destruct (truthy (message r)); [destruct r; reflexivity|].
  destruct (timeout r); [reflexivity|].
  destruct (return_code r) as [[| p | p] |]; reflexivity.
Qed.

(** X9. [run_code] never returns a result with an empty message. *)
Theorem run_code_message_nonempty L os request_data :
  message (run_code L os request_data) <> "".
Proof. rewrite run_code_unfold. apply classify_message_nonempty. Qed.

(** X10. The shape of every result of [run_code]: [test_passed] is never
    set; the elapsed time is present exactly when the return code is; a
    result without return code has empty output texts and no memory usage;
    a memory usage comes with a return code only. *)
Theorem run_code_result_shape L os request_data :
  let r := run_code L os request_data in
  test_passed r = false /\
  (elapsed_time r = None <-> return_code r = None) /\
  (return_code r = None ->
   stdout r = "" /\ stderr r = "" /\ memory_usage r = None) /\
  (memory_usage r <> None -> return_code r <> None).
Proof.
  cbv zeta. rewrite run_code_unfold, classify_keeps_fields.
  cbn [test_passed elapsed_time return_code stdout stderr memory_usage set_message].
  rewrite run_command_outcome. cbv zeta.
  destruct (popen_communicate os _ (input_data request_data) 5)
    as [reason | e | out err rc].
  - cbn. intuition congruence.
  - destruct (is_TimeoutExpired e); cbn; intuition congruence.
  - destruct (parse_telemetry L (snd (split_telemetry err))) as [[elapsed memory] | e].
    + destruct (true_div memory 1024); cbn; intuition congruence.
    + cbn. intuition congruence.
Qed.

(** X14. Classifying twice is classifying once. *)
Theorem classify_idempotent r : classify (classify r) = classify r.
Proof.
  apply classify_message_kept. apply classify_message_nonempty.
Qed.

(** * Telemetry that does not convert *)

Lemma true_div_raise_text a b e :
  true_div a b = Raise e ->
  e = OverflowError "integer division result too large for a float".
Proof.
  unfold true_div. destruct (is_finite _); [discriminate|]. congruence.
Qed.

(** X11. When the memory figure is an integer too large for a float, the
    division of line 147 raises after the other assignments: [run_code]
    returns the output, the cleaned error stream, the return code and the
    elapsed time, no memory usage, and the text of the [OverflowError] as
    message in place of a label. *)
Theorem memory_overflow_result
    L os request_data out err returncode elapsed memory e :
  popen_communicate os (run_code_argv os request_data)
    (input_data request_data) 5 = Completed out err returncode ->
  parse_telemetry L (snd (split_telemetry err)) = Ok (elapsed, memory) ->
  true_div memory 1024 = Raise e ->
  run_code L os request_data
  = {| stdout := out;
       stderr := fst (split_telemetry err);
       return_code := Some returncode;
       elapsed_time := Some (round3 elapsed);
       memory_usage := None;
       timeout := is_alive_after_join os (watchdog_window 5) || (returncode =? 137);
       test_passed := false;
       message := "integer division result too large for a float" |}.
Proof.
  intros Hp Hparse Hdiv. rewrite run_code_unfold, run_command_outcome. cbv zeta.
  unfold run_code_argv in Hp. cbv zeta in Hp. rewrite Hp, Hparse, Hdiv.
  rewrite (true_div_raise_text _ _ _ Hdiv). reflexivity.
Qed.

Lemma memory_overflow_result_witness :
  popen_communicate example_huge_memory
    (run_code_argv example_huge_memory example_request)
    (input_data example_request) 5
    = Completed "42" ("0:00.10 1" ++ replicate 400 "0") 0 /\
  parse_telemetry 4300 (snd (split_telemetry ("0:00.10 1" ++ replicate 400 "0")))
    = Ok (elapsed_formula 0 0 0 10, 10 ^ 400) /\
  true_div (10 ^ 400) 1024
    = Raise (OverflowError "integer division result too large for a float") /\
  run_code 4300 example_huge_memory example_request
  = {| stdout := "42";
       stderr := "";
       return_code := Some 0;
       elapsed_time := Some (round3 (elapsed_formula 0 0 0 10));
       memory_usage := None;
       timeout := false;
       test_passed := false;
       message := "integer division result too large for a float" |}.
Proof.
  split; [reflexivity|]. split; [vm_compute; reflexivity|].
  split; [vm_compute; reflexivity|].
  apply (memory_overflow_result 4300 example_huge_memory example_request "42"
           ("0:00.10 1" ++ replicate 400 "0") 0 (elapsed_formula 0 0 0 10)
           (10 ^ 400)
           (OverflowError "integer division result too large for a float"));
    [reflexivity | vm_compute; reflexivity | vm_compute; reflexivity].
Defined.

(** X13. When the process ended but its telemetry does not convert (wrong
    number of tokens, a time token or a memory figure that does not parse),
    [run_code] drops what the process produced: the result has no output, no
    return code and no measurements, and its message is the text of the
    exception, one of the conversion's texts. *)
Theorem unconverted_telemetry_result L os request_data out err returncode e :
  popen_communicate os (run_code_argv os request_data)
    (input_data request_data) 5 = Completed out err returncode ->
  parse_telemetry L (snd (split_telemetry err)) = Raise e ->
  run_code L os request_data
    = bare_result (is_alive_after_join os (watchdog_window 5))
        (str_of_exception e) /\
  parse_failure_text L (str_of_exception e).
Proof.
  intros Hp Hparse.
  destruct (parse_telemetry_raise L _ e Hparse) as [_ Htext].
  destruct (parse_failure_text_diagnostic L _ Htext) as [Hne _].
  split; [| exact Htext].
  rewrite run_code_unfold, run_command_outcome. cbv zeta.
  unfold run_code_argv in Hp. cbv zeta in Hp. rewrite Hp, Hparse.
  rewrite classify_bare.
  destruct (str_of_exception e); [congruence | reflexivity].
Qed.

Lemma unconverted_telemetry_result_witness :
  popen_communicate (example_system (Completed "42" "0:00.10 12kB" 1) false)
    (run_code_argv (example_system (Completed "42" "0:00.10 12kB" 1) false)
       example_request)
    (input_data example_request) 5 = Completed "42" "0:00.10 12kB" 1 /\
  parse_telemetry 4300 (snd (split_telemetry "0:00.10 12kB"))
    = Raise (invalid_literal "12kB") /\
  run_code 4300 (example_system (Completed "42" "0:00.10 12kB" 1) false)
    example_request
    = bare_result false "invalid literal for int() with base 10: '12kB'" /\
  parse_failure_text 4300 "invalid literal for int() with base 10: '12kB'".
Proof.
  split; [reflexivity|]. split; [reflexivity|].
  apply (unconverted_telemetry_result 4300
           (example_system (Completed "42" "0:00.10 12kB" 1) false)
           example_request "42" "0:00.10 12kB" 1 (invalid_literal "12kB"));
    reflexivity.
Defined.

(** X12. The message for a telemetry line that has not exactly two tokens
    tells their number when there are too few: "not enough values to unpack
    (expected 2, got 0)" for none, "... got 1)" for one, and "too many
    values to unpack (expected 2)" for three or more. *)
Theorem token_count_message L os request_data out err returncode :
  popen_communicate os (run_code_argv os request_data)
    (input_data request_data) 5 = Completed out err returncode ->
  List.length (split_ws (snd (split_telemetry err))) <> 2%nat ->
  message (run_code L os request_data)
    = unpack_text (List.length (split_ws (snd (split_telemetry err)))).
Proof.
  intros Hp Hlen.
  assert (Hparse : parse_telemetry L (snd (split_telemetry err))
                   = Raise (ValueError
                              (unpack_text
                                 (List.length (split_ws (snd (split_telemetry err))))))).
  { unfold parse_telemetry.
    destruct (split_ws (snd (split_telemetry err))) as [| a [| b [| c l]]];
      cbn [List.length] in *; try reflexivity. congruence. }
  rewrite run_code_unfold, run_command_outcome. cbv zeta.
  unfold run_code_argv in Hp. cbv zeta in Hp. rewrite Hp, Hparse.
  rewrite classify_bare. cbn [str_of_exception message bare_result].
  destruct (split_ws (snd (split_telemetry err))) as [| a [| b [| c l]]];
    reflexivity.
Qed.

Lemma token_count_message_witness :
  popen_communicate (example_system (Completed "42" "Killed" 137) false)
    (run_code_argv (example_system (Completed "42" "Killed" 137) false)
       example_request)
    (input_data example_request) 5 = Completed "42" "Killed" 137 /\
  List.length (split_ws (snd (split_telemetry "Killed"))) <> 2%nat /\
  message (run_code 4300 (example_system (Completed "42" "Killed" 137) false)
             example_request)
    = "not enough values to unpack (expected 2, got 1)".
Proof.
  split; [reflexivity|]. split; [vm_compute; discriminate|].
  apply (token_count_message 4300
           (example_system (Completed "42" "Killed" 137) false)
           example_request "42" "Killed" 137);
    [reflexivity | vm_compute; discriminate].
Defined.

(** * What [run_code] asks of the system *)

(** X17. One request makes one launch: the result of [run_code] depends on
    the system through the platform, the temporary directory and the file
    name in it, the outcome of the process launched with the argument
    vector of the request, its input and the bound 5, and the state of the
    worker after the join bounded by 5. *)
Theorem run_code_consults L os os' request_data :
  win32 os = win32 os' ->
  mkdtemp os "codeforge_" = mkdtemp os' "codeforge_" ->
  path_join os (mkdtemp os "codeforge_")
    ("main." ++ Language_value (language request_data))
  = path_join os' (mkdtemp os "codeforge_")
      ("main." ++ Language_value (language request_data)) ->
  popen_communicate os (run_code_argv os request_data)
    (input_data request_data) 5
  = popen_communicate os' (run_code_argv os request_data)
      (input_data request_data) 5 ->
  is_alive_after_join os (watchdog_window 5)
  = is_alive_after_join os' (watchdog_window 5) ->
  run_code L os request_data = run_code L os' request_data.
Proof.
  intros Hw Hd Hj Hp Ha. rewrite !run_code_unfold. f_equal.
  assert (Hcmd : get_command_for_language os
                   (write_source_code_to_file os (source_code request_data)
                      (mkdtemp os "codeforge_") (language request_data))
                   (language request_data)
                 = get_command_for_language os'
                     (write_source_code_to_file os' (source_code request_data)
                        (mkdtemp os' "codeforge_") (language request_data))
                     (language request_data)).
  { unfold get_command_for_language, write_source_code_to_file.
    rewrite <- Hd, <- Hw, <- Hj. reflexivity. }
  rewrite <- Hcmd, <- Hd.
  apply run_command_bounds; [| exact Ha].
  exact Hp.
Qed.

Lemma run_code_consults_witness :
  run_code 4300 (example_system (Completed "42" stderr_one_line 0) false)
    example_request
  = run_code 4300
      {| win32 := false;
         path_join := fun dir name => dir ++ "/" ++ name;
         mkdtemp := fun prefix => "/tmp/" ++ prefix ++ "k3x9";
         popen_communicate := fun argv _ bound =>
           if bound =? 5 then Completed "42" stderr_one_line 0
           else SpawnFailed "unused";
         is_alive_after_join := fun bound => negb (bound =? 5) |}
      example_request.
Proof.
  apply (run_code_consults 4300
           (example_system (Completed "42" stderr_one_line 0) false));
    reflexivity.
Defined.

(** * Newlines at the end of the error stream *)

Lemma split_ws_final_newline s : split_ws (s ++ nl) = split_ws s.
Proof.
  induction s as [| c s IH]; [reflexivity|].
  cbn [append split_ws]. destruct (isspace c); [exact IH|].
  destruct s as [| c' s']; [reflexivity|].
  cbn [append] in *. destruct (isspace c'); rewrite IH; reflexivity.
Qed.

Lemma splitlines_final_newline_bounded n : forall s,
  (String.length s <= n)%nat -> s <> "" -> ends_in_linebreak s = false ->
  splitlines (s ++ nl) = splitlines s.
Proof.
  induction n as [| n IH]; intros s Hlen Hne Hend.
  - destruct s; [congruence | simpl in Hlen; lia].
  - destruct s as [| c rest]; [congruence|].
    destruct rest as [| c' r'].
    + cbn [ends_in_linebreak] in Hend. cbn [append splitlines]. rewrite Hend.
      reflexivity.
    + assert (Hrest : ends_in_linebreak (String c' r') = false) by exact Hend.
      assert (IHrest : splitlines (String c' r' ++ nl) = splitlines (String c' r')).
      { apply IH; [simpl in *; lia | discriminate | exact Hrest]. }
      cbn [append splitlines] in *.
      destruct (is_linebreak c); [| rewrite IHrest; reflexivity].
      destruct (Ascii.eqb c CR && Ascii.eqb c' LF) eqn:Hcrlf;
        [| rewrite IHrest; reflexivity].
      apply andb_prop in Hcrlf as [_ Hlf]. apply Ascii.eqb_eq in Hlf. subst c'.
      destruct r' as [| c'' r''].
      * cbn [ends_in_linebreak] in Hrest. discriminate.
      * f_equal. apply IH; [simpl in *; lia | discriminate | exact Hrest].
Qed.

Lemma splitlines_final_newline s :
  s <> "" -> ends_in_linebreak s = false -> splitlines (s ++ nl) = splitlines s.
Proof. apply (splitlines_final_newline_bounded (String.length s)). lia. Qed.

Lemma parse_telemetry_split_ws L a b :
  split_ws a = split_ws b -> parse_telemetry L a = parse_telemetry L b.
Proof. intros H. unfold parse_telemetry. rewrite H. reflexivity. Qed.

(** X15. The newline that ends the telemetry line changes nothing: an error
    stream that does not end in a line boundary and the same stream followed
    by a newline give the same result. *)
Theorem final_newline_harmless
    L os os' tempdir t memory_limit command input_string out err returncode :
  ends_in_linebreak err = false ->
  popen_communicate os
    (nsjail_cmd tempdir t memory_limit ++ time_cmd ++ command)%list
    input_string t = Completed out err returncode ->
  popen_communicate os'
    (nsjail_cmd tempdir t memory_limit ++ time_cmd ++ command)%list
    input_string t = Completed out (err ++ nl) returncode ->
  is_alive_after_join os (watchdog_window t)
    = is_alive_after_join os' (watchdog_window t) ->
  run_command L os tempdir t memory_limit command input_string
  = run_command L os' tempdir t memory_limit command input_string.
Proof.
  intros Hend Hp Hp' Ha.
  assert (Hsplit : fst (split_telemetry (err ++ nl)) = fst (split_telemetry err) /\
                   split_ws (snd (split_telemetry (err ++ nl)))
                   = split_ws (snd (split_telemetry err))).
  { destruct err as [| c rest] eqn:He; [split; reflexivity|].
    rewrite <- He in *.
    unfold split_telemetry.
    rewrite splitlines_final_newline by (subst err; discriminate || assumption).
    destruct (1 <? List.length (splitlines err))%nat; cbn [fst snd];
      [split; reflexivity|].
    split; [reflexivity | apply split_ws_final_newline]. }
  destruct Hsplit as [Hfst Hws].
  rewrite !run_command_outcome. cbv zeta. rewrite Hp, Hp', Ha, Hfst.
  rewrite (parse_telemetry_split_ws L _ _ Hws). reflexivity.
Qed.

Lemma final_newline_harmless_witness :
  ends_in_linebreak stderr_three_lines = false /\
  run_command 4300 (example_system (Completed "42" stderr_three_lines 0) false)
    example_tempdir 5 1000 example_command (Some "42")
  = run_command 4300
      (example_system (Completed "42" (stderr_three_lines ++ nl) 0) false)
      example_tempdir 5 1000 example_command (Some "42").
Proof.
  split; [reflexivity|].
  apply (final_newline_harmless 4300
           (example_system (Completed "42" stderr_three_lines 0) false)
           (example_system (Completed "42" (stderr_three_lines ++ nl) 0) false)
           example_tempdir 5 1000 example_command (Some "42") "42"
           stderr_three_lines 0); reflexivity.
Defined.

Lemma splitlines_blank_last_line_bounded n : forall s,
  (String.length s <= n)%nat ->
  exists lines,
    lines <> [] /\ splitlines (s ++ nl ++ nl) = (lines ++ [""])%list.
Proof.
  induction n as [| n IH]; intros s Hlen.
  - destruct s; [| simpl in Hlen; lia]. exists [""]. split; [discriminate | reflexivity].
  - destruct s as [| c rest].
    { exists [""]. split; [discriminate | reflexivity]. }
    destruct (IH rest ltac:(simpl in Hlen; lia)) as (lines & Hne & Hl).
    cbn [append splitlines].
    destruct (is_linebreak c).
    + destruct rest as [| c' r'].
      * change ("" ++ nl ++ nl) with (String LF nl). cbv iota.
        replace (Ascii.eqb LF LF) with true by reflexivity.
        rewrite andb_true_r.
        destruct (Ascii.eqb c CR).
        -- exists [""]. split; [discriminate | reflexivity].
        -- exists [""; ""]. split; [discriminate | reflexivity].
      * cbn [append] in *.
        destruct (Ascii.eqb c CR && Ascii.eqb c' LF).
        -- destruct (IH r' ltac:(simpl in Hlen; lia)) as (lines' & Hne' & Hl').
           cbn [append] in Hl'. rewrite Hl'.
           exists ("" :: lines'). split; [discriminate | reflexivity].
        -- rewrite Hl. exists ("" :: lines). split; [discriminate | reflexivity].
    + rewrite Hl. destruct lines as [| l ls]; [congruence|].
      exists (String c l :: ls). split; [discriminate | reflexivity].
Qed.

(** X16. A blank last line hides the telemetry: when the error stream ends
    in two newlines, its last line is empty, so whatever stands before,
    [run_code] reports "not enough values to unpack (expected 2, got 0)"
    and neither output nor return code. *)
Theorem blank_last_line_result L os request_data out err returncode :
  popen_communicate os (run_code_argv os request_data)
    (input_data request_data) 5 = Completed out (err ++ nl ++ nl) returncode ->
  run_code L os request_data
  = bare_result (is_alive_after_join os (watchdog_window 5))
      "not enough values to unpack (expected 2, got 0)".
Proof.
  intros Hp.
  destruct (splitlines_blank_last_line_bounded (String.length err) err (le_n _))
    as (lines & Hne & Hl).
  assert (Htele : snd (split_telemetry (err ++ nl ++ nl)) = "").
  { rewrite (split_telemetry_last_line _ lines "" Hl Hne). reflexivity. }
  rewrite run_code_unfold, run_command_outcome. cbv zeta.
  unfold run_code_argv in Hp. cbv zeta in Hp. rewrite Hp, Htele.
  apply classify_bare.
Qed.

Lemma blank_last_line_result_witness :
  popen_communicate
    (example_system (Completed "42" (stderr_one_line ++ nl ++ nl) 0) false)
    (run_code_argv
       (example_system (Completed "42" (stderr_one_line ++ nl ++ nl) 0) false)
       example_request)
    (input_data example_request) 5
    = Completed "42" (stderr_one_line ++ nl ++ nl) 0 /\
  run_code 4300
    (example_system (Completed "42" (stderr_one_line ++ nl ++ nl) 0) false)
    example_request
  = bare_result false "not enough values to unpack (expected 2, got 0)".
Proof.
  split; [reflexivity|].
  apply (blank_last_line_result 4300
           (example_system (Completed "42" (stderr_one_line ++ nl ++ nl) 0) false)
           example_request "42" stderr_one_line 0).
  reflexivity.
Defined.

(** * The limits in the argument vector *)

(** X18. The sandbox wrapper receives the two limits of [run_command] as
    they are: read back from the argument vector, [--rlimit_as=] holds
    [memory_limit] and [--time_limit=] holds [timeout], for every value of
    the two and whatever the directory and the command are. *)
Theorem limits_reach_the_sandbox tempdir t memory_limit command :
  flag_value "--rlimit_as="
    (nsjail_cmd tempdir t memory_limit ++ time_cmd ++ command)%list
    = Some memory_limit /\
  flag_value "--time_limit="
    (nsjail_cmd tempdir t memory_limit ++ time_cmd ++ command)%list
    = Some t.
Proof.
  unfold nsjail_cmd.
  split; cbn [flag_value strip_prefix append Ascii.eqb Bool.eqb app];
    apply int_of_string_str_of_int.
Qed.
